(** * pymongo-plus: the [PymongoPlus] client wrapper of [src/demo.py]

    The wrapper is glue code over two external services: the document
    database reached through the driver, and the embedding provider.  Both are
    kept abstract (class [Services]); the wrapper's methods are embedded as
    programs of a small state/exception/trace monad over them, one Rocq
    definition per Python function, and the properties are stated over the
    result a call returns, the environment it leaves and the calls it made. *)

From Stdlib Require Import List String Ascii ZArith Bool Lia.
From Stdlib Require Import Floats.SpecFloat.
From Stdlib Require Import DecimalString.
Import ListNotations.
Open Scope string_scope.
Open Scope Z_scope.

Set Implicit Arguments.
Set Warnings "-register-all".

(** ** Python values *)

(** BSON / JSON-like values as the driver hands them over: [None], booleans,
    integers, doubles, strings, lists and dicts (insertion-ordered). *)
Inductive value : Type :=
| VNone
| VBool (b : bool)
| VInt (z : Z)
| VFloat (f : spec_float)
| VStr (s : string)
| VList (l : list value)
| VDict (d : list (string * value)).

(** A Python [dict] with string keys. *)
Definition document := list (string * value).

(** [d.get(key)], with [None] of [option] for an absent key. *)
Fixpoint doc_get (key : string) (d : document) : option value :=
  match d with
  | [] => None
  | (k, v) :: d' => if String.eqb k key then Some v else doc_get key d'
  end.

(** [d.get(key, default)]. *)
Definition doc_get_default (key : string) (default : value) (d : document) : value :=
  match doc_get key d with
  | Some v => v
  | None => default
  end.

(** A list of floats, or [None]. *)
Definition embedding := option (list spec_float).

(** [value == name] for a string [name]: only an equal string compares equal. *)
Definition value_eq_str (v : value) (name : string) : bool :=
  match v with
  | VStr s => String.eqb s name
  | _ => false
  end.

(** [str(n)] for an integer. *)
Definition str_of_int (n : Z) : string := NilZero.string_of_int (Z.to_int n).

(** [text.replace(old, new)] for one-character [old] and [new]. *)
Fixpoint str_replace (old new : ascii) (text : string) : string :=
  match text with
  | EmptyString => EmptyString
  | String c rest =>
      String (if Ascii.eqb c old then new else c) (str_replace old new rest)
  end.

(** The line feed character. *)
Definition LF : ascii := ascii_of_nat 10.
(** The space character. *)
Definition SP : ascii := ascii_of_nat 32.

(** ** Exceptions *)

(** The subclasses of [Exception] the wrapper tells apart, and the rest. *)
Inductive exn : Type :=
| OperationFailure (msg : string)
| KeyError (key : string)
| TypeError (msg : string)
| Exception (msg : string).

(** [str(e)]. *)
Definition exn_str (e : exn) : string :=
  match e with
  | OperationFailure m => m
  | KeyError k => "'" ++ k ++ "'"
  | TypeError m => m
  | Exception m => m
  end.

(** [isinstance(e, OperationFailure)]. *)
Definition is_operation_failure (e : exn) : bool :=
  match e with
  | OperationFailure _ => true
  | _ => false
  end.

(** What a call ends in: a returned value or a raised exception. *)
Inductive outcome (A : Type) : Type :=
| Ok (a : A)
| Raise (e : exn).
Arguments Ok {A} a.
Arguments Raise {A} e.

(** ** What the wrapper hands to its collaborators *)

(** [SearchIndexModel(definition=..., name=..., type=...)]. *)
Record SearchIndexModel : Type := {
  sim_definition : document;
  sim_name : string;
  sim_type : string
}.

(** The keyword arguments of [Document(...)] at lines 142-147 of [demo.py];
    the class itself is neither defined nor imported there. *)
Record Document : Type := {
  doc_id : string;
  doc_name : value;
  doc_content : value;
  doc_meta_data : value
}.

Inductive log_level : Type := INFO | ERROR.

(** The observable actions of the wrapper, in the order they happen. *)
Inductive event : Type :=
| EvEmbeddingsCreate (input : list string) (model : string) (dimensions : Z)
| EvListCollectionNames (database_name : string)
| EvInsertOne (database_name collection_name : string) (doc : document)
| EvDeleteOne (database_name collection_name : string) (filter : document)
| EvListSearchIndexes (database_name collection_name : string)
| EvCreateSearchIndex (database_name collection_name : string) (model : SearchIndexModel)
| EvProbeEmbedding (text : string)
| EvEmbedderGetEmbedding (query : string)
| EvAggregate (pipeline : list document)
| EvSleep (seconds : Z)
| EvLog (level : log_level) (msg : string).

(** ** The external services *)

(** The database behind the driver and the embedding provider.  [Env] is
    their joint state; every operation may fail with an exception and may
    change the state either way.  Building a handle ([client[db][coll]]) does
    no I/O; a name the driver rejects shows up as the failure of the operation
    called on the handle.  [embedder_get_embedding] and [collection_aggregate]
    stand for [self.embedder.get_embedding] and [self._collection.aggregate],
    attributes [search] reads and the class never assigns.  [py_str] is the
    builtin [str] on values. *)
Class Services : Type := {
  Env : Type;
  embeddings_create : list string -> string -> Z -> Env -> outcome embedding * Env;
  list_collection_names : string -> Env -> outcome (list string) * Env;
  insert_one : string -> string -> document -> Env -> outcome unit * Env;
  delete_one : string -> string -> document -> Env -> outcome unit * Env;
  list_search_indexes : string -> string -> Env -> outcome (list document) * Env;
  create_search_index : string -> string -> SearchIndexModel -> Env -> outcome unit * Env;
  embedder_get_embedding : string -> Env -> outcome value * Env;
  collection_aggregate : list document -> Env -> outcome (list document) * Env;
  sleep : Z -> Env -> Env;
  py_str : value -> string
}.

(** ** The monad of wrapper code *)

Section Monad.
Context {Sv : Services}.

(** A run: the outcome, the environment left behind, the events emitted. *)
Record run (A : Type) : Type := Run {
  result : outcome A;
  env_after : Env;
  events : list event
}.

Definition M (A : Type) : Type := Env -> run A.

Definition ret {A} (a : A) : M A := fun s => Run (Ok a) s [].

Definition raise {A} (e : exn) : M A := fun s => Run (Raise e) s [].

Definition bind {A B} (m : M A) (f : A -> M B) : M B := fun s =>
  match m s with
  | Run (Ok a) s1 t1 =>
      match f a s1 with
      | Run r s2 t2 => Run r s2 (t1 ++ t2)%list
      end
  | Run (Raise e) s1 t1 => Run (Raise e) s1 t1
  end.

(** [try: m  except Exception as e: h e]. *)
Definition try_catch {A} (m : M A) (h : exn -> M A) : M A := fun s =>
  match m s with
  | Run (Ok a) s1 t1 => Run (Ok a) s1 t1
  | Run (Raise e) s1 t1 =>
      match h e s1 with
      | Run r s2 t2 => Run r s2 (t1 ++ t2)%list
      end
  end.

(** A call to a service, recorded as [ev]. *)
Definition call {A} (ev : event) (op : Env -> outcome A * Env) : M A := fun s =>
  match op s with
  | (r, s1) => Run r s1 [ev]
  end.

(** [logger.info(msg)] / [logger.error(msg)]. *)
Definition log (level : log_level) (msg : string) : M unit := fun s =>
  Run (Ok tt) s [EvLog level msg].

(** [time.sleep(seconds)]. *)
Definition time_sleep (seconds : Z) : M unit := fun s =>
  Run (Ok tt) (sleep seconds s) [EvSleep seconds].

(** A pure computation that may raise. *)
Definition lift {A} (o : outcome A) : M A := fun s => Run o s [].
End Monad.

Notation "x <- m ;; k" := (bind m (fun x => k))
  (at level 61, m at next level, right associativity).
Notation "m ;;; k" := (bind m (fun _ => k))
  (at level 61, right associativity).

(** ** The wrapper *)

Section Wrapper.
Context {Sv : Services}.

(** *** [get_embedding] (module level, lines 12-18) *)

Definition get_embedding (text : string) (model : string) (dimensions : Z) : M embedding :=
  let text := str_replace LF SP text in
  try_catch
    (call (EvEmbeddingsCreate [text] model dimensions)
          (embeddings_create [text] model dimensions))
    (fun e =>
       log ERROR ("Error generating embedding: " ++ exn_str e) ;;;
       raise e).

(** The defaults of [model] and [dimensions]. *)
Definition default_model : string := "text-embedding-3-small".
Definition default_dimensions : Z := 256.

(** *** [PymongoPlus.index_exists] (lines 154-172) *)

(** [any(index["name"] == index_name for index in indexes)]: the scan stops
    at the first match, and an entry without a ["name"] raises [KeyError]. *)
Fixpoint any_name_eq (index_name : string) (indexes : list document) : outcome bool :=
  match indexes with
  | [] => Ok false
  | index :: rest =>
      match doc_get "name" index with
      | None => Raise (KeyError "name")
      | Some v =>
          if value_eq_str v index_name then Ok true
          else any_name_eq index_name rest
      end
  end.

Definition index_exists (database_name collection_name index_name : string) : M bool :=
  try_catch
    (indexes <- call (EvListSearchIndexes database_name collection_name)
                     (list_search_indexes database_name collection_name) ;;
     exists_ <- lift (any_name_eq index_name indexes) ;;
     ret exists_)
    (fun e =>
       if is_operation_failure e then
         log ERROR ("Operation failure while checking index existence: " ++ exn_str e) ;;;
         ret false
       else
         log ERROR ("Error checking search index existence for '" ++ index_name
                    ++ "': " ++ exn_str e) ;;;
         ret false).

(** *** [PymongoPlus.create_if_not_exists] (lines 33-53) *)

(** [collection_name in collection_names]. *)
Definition str_in (x : string) (l : list string) : bool :=
  existsb (String.eqb x) l.

(** [{"_id": 0, "placeholder": True}] and [{"_id": 0}]. *)
Definition placeholder_doc : document := [("_id", VInt 0); ("placeholder", VBool true)].
Definition placeholder_filter : document := [("_id", VInt 0)].

(** The returned collection handle is the pair of names it was built from. *)
Definition create_if_not_exists (database_name collection_name : string)
  : M (string * string) :=
  collection_names <- call (EvListCollectionNames database_name)
                           (list_collection_names database_name) ;;
  if negb (str_in collection_name collection_names) then
    log INFO ("Collection '" ++ collection_name ++ "' does not exist. Creating it now.") ;;;
    call (EvInsertOne database_name collection_name placeholder_doc)
         (insert_one database_name collection_name placeholder_doc) ;;;
    call (EvDeleteOne database_name collection_name placeholder_filter)
         (delete_one database_name collection_name placeholder_filter) ;;;
    log INFO ("Collection '" ++ collection_name ++ "' created successfully.") ;;;
    ret (database_name, collection_name)
  else
    ret (database_name, collection_name).

(** *** [PymongoPlus._create_search_index] (lines 55-111) *)

(** [len(x)] of what the probe returned; [None] has no length. *)
Definition py_len (x : embedding) : outcome Z :=
  match x with
  | Some l => Ok (Z.of_nat (List.length l))
  | None => Raise (TypeError "object of type 'NoneType' has no len()")
  end.

Definition search_index_model (index_name : string) (num_dimensions : Z)
           (distance_metric : string) : SearchIndexModel :=
  {| sim_definition :=
       [("fields",
         VList [VDict [("type", VStr "vector");
                       ("numDimensions", VInt num_dimensions);
                       ("path", VStr "embedding");
                       ("similarity", VStr distance_metric)]])];
     sim_name := index_name;
     sim_type := "vectorSearch" |}.

(** The [get_embedding] parameter is any callable of the caller's; its call
    with the probe text ["0"] is recorded as [EvProbeEmbedding]. *)
Definition _create_search_index (database_name collection_name index_name : string)
           (get_embedding : string -> Env -> outcome embedding * Env)
           (distance_metric : string) : M unit :=
  try_catch
    (create_if_not_exists database_name collection_name ;;;
     exists_ <- index_exists database_name collection_name index_name ;;
     if exists_ then
       log INFO ("Search index '" ++ index_name ++ "' already exists in collection '"
                 ++ collection_name ++ "'.") ;;;
       ret tt
     else
       log INFO ("Creating search index '" ++ index_name ++ "' for collection '"
                 ++ collection_name ++ "'.") ;;;
       probe <- call (EvProbeEmbedding "0") (get_embedding "0") ;;
       num_dimensions <- lift (py_len probe) ;;
       let search_index_model :=
         search_index_model index_name num_dimensions distance_metric in
       call (EvCreateSearchIndex database_name collection_name search_index_model)
            (create_search_index database_name collection_name search_index_model) ;;;
       log INFO ("Search index '" ++ index_name ++ "' created successfully for collection '"
                 ++ collection_name ++ "'.") ;;;
       ret tt)
    (fun e =>
       if is_operation_failure e then
         log ERROR ("Operation failed: " ++ exn_str e) ;;; raise e
       else
         log ERROR ("Failed to create search index '" ++ index_name ++ "': " ++ exn_str e) ;;;
         raise e).

(** *** [PymongoPlus.search] (lines 112-153) *)

(** The aggregation pipeline of lines 125-137. *)
Definition search_pipeline (index_name : string) (query_vector : value) : list document :=
  ([ [("$vectorSearch",
      VDict [("index", VStr index_name);
             ("limit", VInt 10);
             ("numCandidates", VInt 10);
             ("queryVector", query_vector);
             ("path", VStr "embedding")])];
    [("$set", VDict [("score", VDict [("$meta", VStr "vectorSearchScore")])])] ]
  ++ [ [("$project", VDict [("embedding", VInt 0)])] ])%list.

(** [doc[key]]. *)
Definition doc_item (key : string) (d : document) : outcome value :=
  match doc_get key d with
  | Some v => Ok v
  | None => Raise (KeyError key)
  end.

(** The [Document(...)] built from one raw record (lines 142-147). *)
Definition to_document (doc : document) : outcome Document :=
  match doc_item "_id" doc with
  | Raise e => Raise e
  | Ok id =>
      match doc_item "content" doc with
      | Raise e => Raise e
      | Ok content =>
          Ok {| doc_id := py_str id;
                doc_name := doc_get_default "name" VNone doc;
                doc_content := content;
                doc_meta_data := doc_get_default "meta_data" (VDict []) doc |}
      end
  end.

(** The loop of lines 139-148: [docs] grows by one [Document] per record. *)
Fixpoint map_records (agg : list document) (docs : list Document)
  : outcome (list Document) :=
  match agg with
  | [] => Ok docs
  | doc :: rest =>
      match to_document doc with
      | Raise e => Raise e
      | Ok d => map_records rest (docs ++ [d])%list
      end
  end.

(** The body of the [try] block (lines 125-150). *)
Definition search_try (query index_name : string) : M (list Document) :=
  query_vector <- call (EvEmbedderGetEmbedding query) (embedder_get_embedding query) ;;
  let pipeline := search_pipeline index_name query_vector in
  agg <- call (EvAggregate pipeline) (collection_aggregate pipeline) ;;
  docs <- lift (map_records agg []) ;;
  log INFO ("Search completed. Found " ++ str_of_int (Z.of_nat (List.length docs))
            ++ " documents.") ;;;
  ret docs.

Definition search (query : string) (limit : Z)
           (database_name collection_name index_name : string)
           (filters : option document) : M (list Document) :=
  query_embedding <- get_embedding query default_model default_dimensions ;;
  exists_ <- index_exists database_name collection_name index_name ;;
  if negb exists_ then
    log ERROR ("Index " ++ index_name ++ " does not exist.") ;;;
    ret []
  else
    match query_embedding with
    | None =>
        log ERROR ("Failed to generate embedding for query: " ++ query) ;;;
        ret []
    | Some _ =>
        try_catch
          (search_try query index_name)
          (fun e =>
             log ERROR ("Error during search: " ++ exn_str e) ;;;
             ret [])
    end.

(** *** The polling loop of the demo (lines 196-204) *)

(** How the loop ends: its condition turned false ([Ready]) or it hit
    [break] ([TimedOut]). *)
Inductive readiness : Type := Ready | TimedOut.

(** The [while] loop, with [attempt] the counter on entry; [fuel] bounds
    the number of evaluations of the loop condition, [None] is fuel
    exhausted. *)
Fixpoint wait_for_index (fuel : nat) (max_attempts attempt : Z)
         (database_name collection_name index_name : string)
  : M (option readiness) :=
  match fuel with
  | O => ret None
  | S fuel' =>
      exists_ <- index_exists database_name collection_name index_name ;;
      if negb exists_ then
        let attempt := attempt + 1 in
        if attempt >? max_attempts then
          log ERROR "Search index creation timed out after waiting." ;;;
          ret (Some TimedOut)
        else
          log INFO ("Attempt " ++ str_of_int attempt ++ ": Search index '" ++ index_name
                    ++ "' not ready yet. Waiting...") ;;;
          time_sleep 1 ;;;
          wait_for_index fuel' max_attempts attempt
                         database_name collection_name index_name
      else
        ret (Some Ready)
  end.

(** [max_attempts = 10] of the demo. *)
Definition max_attempts : Z := 10.
End Wrapper.

(** ** An in-memory stand-in for the services

    A small executable instance of [Services], used to run the wrapper on
    concrete inputs.  Collections appear on the first insert and stay when
    documents are deleted; a created search index is listed once
    [hidden_checks] listings have gone by. *)

Module Mem.
Record state : Type := {
  collections : list (string * string);
  indexes : list (string * string * document);
  hidden_checks : nat;
  listing_fails : bool;
  provider_up : bool;
  records : list document
}.

Definition pair_eqb (a b : string * string) : bool :=
  String.eqb (fst a) (fst b) && String.eqb (snd a) (snd b).

Definition embeddings_create (input : list string) (model : string) (dimensions : Z)
           (s : state) : outcome embedding * state :=
  if provider_up s then (Ok (Some (repeat (S754_zero false) (Z.to_nat dimensions))), s)
  else (Raise (Exception "provider unavailable"), s).

Definition list_collection_names (db : string) (s : state)
  : outcome (list string) * state :=
  (Ok (map snd (filter (fun p => String.eqb (fst p) db) (collections s))), s).

Definition insert_one (db coll : string) (d : document) (s : state)
  : outcome unit * state :=
  (Ok tt,
   if existsb (pair_eqb (db, coll)) (collections s) then s
   else {| collections := (collections s ++ [(db, coll)])%list;
           indexes := indexes s;
           hidden_checks := hidden_checks s;
           listing_fails := listing_fails s;
           provider_up := provider_up s;
           records := records s |}).

Definition delete_one (db coll : string) (f : document) (s : state)
  : outcome unit * state := (Ok tt, s).

Definition list_search_indexes (db coll : string) (s : state)
  : outcome (list document) * state :=
  if listing_fails s then (Raise (OperationFailure "listSearchIndexes failed"), s)
  else
    match hidden_checks s with
    | S n =>
        (Ok [],
         {| collections := collections s;
            indexes := indexes s;
            hidden_checks := n;
            listing_fails := listing_fails s;
            provider_up := provider_up s;
            records := records s |})
    | O =>
        (Ok (map snd (filter (fun i => pair_eqb (fst i) (db, coll)) (indexes s))), s)
    end.

Definition create_search_index (db coll : string) (m : SearchIndexModel) (s : state)
  : outcome unit * state :=
  (Ok tt,
   {| collections := collections s;
      indexes := (indexes s ++ [((db, coll), [("name", VStr (sim_name m))])])%list;
      hidden_checks := hidden_checks s;
      listing_fails := listing_fails s;
      provider_up := provider_up s;
      records := records s |}).

Definition embedder_get_embedding (query : string) (s : state) : outcome value * state :=
  (Ok (VList [VFloat (S754_zero false)]), s).

Definition collection_aggregate (pipeline : list document) (s : state)
  : outcome (list document) * state := (Ok (records s), s).

Definition py_str (v : value) : string :=
  match v with
  | VStr x => x
  | VInt z => str_of_int z
  | _ => ""
  end.

#[export] Instance services : Services :=
  Build_Services
    embeddings_create list_collection_names insert_one delete_one
    list_search_indexes create_search_index embedder_get_embedding
    collection_aggregate (fun _ s => s) py_str.

(** An empty database with a working provider. *)
Definition empty : @Env services :=
  {| collections := []; indexes := []; hidden_checks := 0%nat;
     listing_fails := false; provider_up := true; records := [] |}.

(** Database "kb" with collection "docs" and search index "vec_idx",
    listed after [hidden] more listings, holding [recs]. *)
Definition kb (hidden : nat) (recs : list document) : @Env services :=
  {| collections := [("kb", "docs")];
     indexes := [(("kb", "docs"), [("name", VStr "vec_idx")])];
     hidden_checks := hidden;
     listing_fails := false; provider_up := true; records := recs |}.

(** The same, with the embedding provider down. *)
Definition provider_down (s : @Env services) : @Env services :=
  {| collections := collections s; indexes := indexes s;
     hidden_checks := hidden_checks s; listing_fails := listing_fails s;
     provider_up := false; records := records s |}.

(** The same, with the index listing failing. *)
Definition listing_down (s : @Env services) : @Env services :=
  {| collections := collections s; indexes := indexes s;
     hidden_checks := hidden_checks s; listing_fails := true;
     provider_up := provider_up s; records := records s |}.

(** A probe callable for [_create_search_index]: the provider itself. *)
Definition probe (text : string) : state -> outcome embedding * state :=
  embeddings_create [text] "text-embedding-3-small" 256.

(** 0.75 and 0.25 as doubles. *)
Definition f075 : spec_float := S754_finite false 3 (-2).
Definition f025 : spec_float := S754_finite false 1 (-2).

(** A stored record as the pipeline returns it: the embedding projected
    away, the score attached. *)
Definition record (id : Z) (content : string) (score : spec_float) : document :=
  [("_id", VInt id); ("name", VStr "n"); ("content", VStr content);
   ("meta_data", VDict []); ("score", VFloat score)].
End Mem.

#[local] Existing Instance Mem.services.

(** ** Observations on event lists *)

Definition is_check (ev : event) : bool :=
  match ev with EvListSearchIndexes _ _ => true | _ => false end.

Definition is_sleep (ev : event) : bool :=
  match ev with EvSleep _ => true | _ => false end.

Definition is_write (ev : event) : bool :=
  match ev with EvInsertOne _ _ _ | EvDeleteOne _ _ _ => true | _ => false end.

Definition is_creation (ev : event) : bool :=
  match ev with EvCreateSearchIndex _ _ _ => true | _ => false end.

Definition is_probe (ev : event) : bool :=
  match ev with EvProbeEmbedding _ => true | _ => false end.

(** The writes among the events, in order. *)
Definition writes (evs : list event) : list event := filter is_write evs.

(** The index-creation calls among the events. *)
Definition creations (evs : list event) : list event := filter is_creation evs.

(** The existence checks and sleeps among the events, in order. *)
Definition schedule (evs : list event) : list event :=
  filter (fun ev => is_check ev || is_sleep ev) evs.

(** [k] checks of the index listing with a one-second sleep between
    consecutive ones (for [k = 0], nothing). *)
Fixpoint checks_with_waits (database_name collection_name : string) (k : nat)
  : list event :=
  match k with
  | O => []
  | S O => [EvListSearchIndexes database_name collection_name]
  | S k' =>
      EvListSearchIndexes database_name collection_name :: EvSleep 1
        :: checks_with_waits database_name collection_name k'
  end.

(** Two texts that agree character by character, except that where one has a
    newline the other may have a space. *)
Fixpoint same_up_to_newlines (a b : string) : bool :=
  match a, b with
  | EmptyString, EmptyString => true
  | String c a', String d b' =>
      (Ascii.eqb c d
       || ((Ascii.eqb c LF || Ascii.eqb c SP) && (Ascii.eqb d LF || Ascii.eqb d SP)))
      && same_up_to_newlines a' b'
  | _, _ => false
  end.

(** The name of a listed index equals [index_name]. *)
Definition has_name (index_name : string) (index : document) : bool :=
  match doc_get "name" index with
  | Some v => value_eq_str v index_name
  | None => false
  end.

(** A listed index carries a ["name"]. *)
Definition named (index : document) : Prop := doc_get "name" index <> None.

(** In a pipeline, the body of the first stage with operator [stage], and a
    field of that body. *)
Fixpoint stage_body (stage : string) (pipeline : list document) : option value :=
  match pipeline with
  | [] => None
  | d :: rest =>
      match doc_get stage d with
      | Some v => Some v
      | None => stage_body stage rest
      end
  end.

Definition stage_field (stage field : string) (pipeline : list document) : option value :=
  match stage_body stage pipeline with
  | Some (VDict d) => doc_get field d
  | _ => None
  end.

(** Two raw records with the same entries under the keys [to_document] reads. *)
Definition same_read_keys (a b : document) : Prop :=
  doc_get "_id" a = doc_get "_id" b
  /\ doc_get "name" a = doc_get "name" b
  /\ doc_get "content" a = doc_get "content" b
  /\ doc_get "meta_data" a = doc_get "meta_data" b.

Section Observations.
Context {Sv : Services}.

(** The database lists the collection. *)
Definition listed (database_name collection_name : string) (s : Env) : Prop :=
  exists names s1,
    list_collection_names database_name s = (Ok names, s1)
    /\ str_in collection_name names = true.

(** The database materialises a collection on the first insert into it. *)
Definition insert_materialises : Prop :=
  forall db c d s s1, insert_one db c d s = (Ok tt, s1) -> listed db c s1.

(** Deleting a document drops no collection. *)
Definition delete_keeps_collections : Prop :=
  forall db c f s s1,
    delete_one db c f s = (Ok tt, s1) -> forall c', listed db c' s -> listed db c' s1.

(** What the existence check of a [_create_search_index] call started in [s]
    reports, if the call gets there. *)
Definition existence_check (database_name collection_name index_name : string) (s : Env)
  : option bool :=
  match create_if_not_exists database_name collection_name s with
  | Run (Ok _) s1 _ =>
      match result (index_exists database_name collection_name index_name s1) with
      | Ok b => Some b
      | Raise _ => None
      end
  | Run (Raise _) _ _ => None
  end.

(** The answer of one existence check in [s], and the environment at the
    next one, a one-second sleep later. *)
Definition check (database_name collection_name index_name : string) (s : Env) : bool :=
  match result (index_exists database_name collection_name index_name s) with
  | Ok b => b
  | Raise _ => false
  end.

Definition next_check (database_name collection_name index_name : string) (s : Env) : Env :=
  sleep 1 (env_after (index_exists database_name collection_name index_name s)).

(** The index is reported absent by [j] checks in a row and present by the
    next one. *)
Fixpoint visible_after (j : nat) (database_name collection_name index_name : string)
         (s : Env) : bool :=
  match j with
  | O => check database_name collection_name index_name s
  | S j' =>
      negb (check database_name collection_name index_name s)
      && visible_after j' database_name collection_name index_name
                       (next_check database_name collection_name index_name s)
  end.

(** The index becomes visible on the [k]-th check, counting from 1. *)
Definition visible_on_check (k : nat) (database_name collection_name index_name : string)
           (s : Env) : bool :=
  match k with
  | O => false
  | S j => visible_after j database_name collection_name index_name s
  end.

(** The index is reported absent by [m] checks in a row. *)
Fixpoint hidden_for (m : nat) (database_name collection_name index_name : string)
         (s : Env) : bool :=
  match m with
  | O => true
  | S m' =>
      negb (check database_name collection_name index_name s)
      && hidden_for m' database_name collection_name index_name
                    (next_check database_name collection_name index_name s)
  end.

(** [d] is the [Document] of the raw record [raw]: its fields are the
    record's ["_id"] as a string, ["name"], ["content"] and ["meta_data"]. *)
Definition built_from (raw : document) (d : Document) : Prop :=
  exists id,
    doc_get "_id" raw = Some id
    /\ doc_id d = py_str id
    /\ doc_get "content" raw = Some (doc_content d)
    /\ doc_name d = doc_get_default "name" VNone raw
    /\ doc_meta_data d = doc_get_default "meta_data" (VDict []) raw.
End Observations.

(** ** The rest of the two files *)

Section BaseWrapper.
Context {Sv : Services}.

(** [MongoClient.get_collection_names] of [base-wrapper.py] (lines 17-20). *)
Definition get_collection_names (database_name : string) : M (list string) :=
  call (EvListCollectionNames database_name) (list_collection_names database_name).

(** The module-level [get_embedding] with its default arguments, as the
    callable the demo hands to [_create_search_index] (line 190): what it
    returns and the environment it leaves.  Its provider call and error line
    happen inside the probe, which the caller records as one
    [EvProbeEmbedding]. *)
Definition get_embedding_callable (text : string) (s : Env) : outcome embedding * Env :=
  match get_embedding text default_model default_dimensions s with
  | Run r s1 _ => (r, s1)
  end.
End BaseWrapper.

(** The demo script under [if __name__ == "__main__"] (lines 175-211). *)
Module Demo.
Section Script.
Context {Sv : Services}.

Definition database_name : string := "test_database".
Definition collection_name : string := "test_collection".
Definition index_name : string := "vector_search_index".
Definition distance_metric : string := "cosine".

Definition ready_line : string := "Index is ready!".
Definition exceeded_line : string := "Index creation process exceeded wait limit.".

(** The three steps of the script; the value is the line it prints.
    Constructing the client does no I/O.  [fuel] is the fuel of the polling
    loop, [None] is fuel exhausted. *)
Definition main (fuel : nat) : M (option string) :=
  _create_search_index database_name collection_name index_name
                       get_embedding_callable distance_metric ;;;
  log INFO "Waiting for the search index to be available..." ;;;
  ended <- wait_for_index fuel max_attempts 0 database_name collection_name index_name ;;
  match ended with
  | None => ret None
  | Some _ =>
      exists_ <- index_exists database_name collection_name index_name ;;
      if exists_ then
        log INFO ("Search index '" ++ index_name ++ "' is now available!") ;;;
        ret (Some ready_line)
      else
        ret (Some exceeded_line)
  end.
End Script.
End Demo.

(** ** Services that can be made to fail

    The in-memory services with switches for the failures the wrapper has to
    cope with: a failing collection listing, insert, delete or index
    creation, and a provider that answers [None]. *)

Module Flaky.
Record faults : Type := {
  collections_fail : bool;
  insert_fails : bool;
  delete_fails : bool;
  creation_fails : bool;
  provider_none : bool
}.

Definition state : Type := (Mem.state * faults)%type.

Definition on_mem {A} (op : Mem.state -> outcome A * Mem.state) (s : state)
  : outcome A * state :=
  match op (fst s) with
  | (r, m) => (r, (m, snd s))
  end.

Definition failing {A} (switch : faults -> bool) (msg : string)
           (op : Mem.state -> outcome A * Mem.state) (s : state)
  : outcome A * state :=
  if switch (snd s) then (Raise (OperationFailure msg), s) else on_mem op s.

Definition embeddings_create (input : list string) (model : string) (dimensions : Z)
           (s : state) : outcome embedding * state :=
  if provider_none (snd s) then (Ok None, s)
  else on_mem (Mem.embeddings_create input model dimensions) s.

Definition services : Services :=
  Build_Services
    embeddings_create
    (fun db => failing collections_fail "listCollections failed" (Mem.list_collection_names db))
    (fun db c d => failing insert_fails "insert failed" (Mem.insert_one db c d))
    (fun db c f => failing delete_fails "delete failed" (Mem.delete_one db c f))
    (fun db c => on_mem (Mem.list_search_indexes db c))
    (fun db c m => failing creation_fails "createSearchIndexes failed"
                           (Mem.create_search_index db c m))
    (fun q => on_mem (Mem.embedder_get_embedding q))
    (fun p => on_mem (Mem.collection_aggregate p))
    (fun _ s => s)
    Mem.py_str.

Definition no_faults : faults :=
  {| collections_fail := false; insert_fails := false; delete_fails := false;
     creation_fails := false; provider_none := false |}.

(** The in-memory state [m] with the given switches on. *)
Definition with_faults (m : Mem.state) (f : faults) : @Env services := (m, f).

Definition failing_collections : faults :=
  {| collections_fail := true; insert_fails := false; delete_fails := false;
     creation_fails := false; provider_none := false |}.
Definition failing_insert : faults :=
  {| collections_fail := false; insert_fails := true; delete_fails := false;
     creation_fails := false; provider_none := false |}.
Definition failing_delete : faults :=
  {| collections_fail := false; insert_fails := false; delete_fails := true;
     creation_fails := false; provider_none := false |}.
Definition failing_creation : faults :=
  {| collections_fail := false; insert_fails := false; delete_fails := false;
     creation_fails := true; provider_none := false |}.
Definition answering_none : faults :=
  {| collections_fail := false; insert_fails := false; delete_fails := false;
     creation_fails := false; provider_none := true |}.
End Flaky.

(** Environments for running the wrapper on concrete inputs. *)
Module Fixtures.
(** Collection "docs" of database "kb" with the given search-index listing. *)
Definition listing (entries : list document) : @Env Mem.services :=
  {| Mem.collections := [("kb", "docs")];
     Mem.indexes := map (fun entry => (("kb", "docs"), entry)) entries;
     Mem.hidden_checks := 0%nat; Mem.listing_fails := false;
     Mem.provider_up := true; Mem.records := [] |}.

Definition nameless : document := [("status", VStr "PENDING")].
Definition vec_idx : document := [("name", VStr "vec_idx")].
End Fixtures.

Section MoreObservations.
Context {Sv : Services}.

(** The error line [_create_search_index] logs for exception [e]. *)
Definition creation_failure_line (index_name : string) (e : exn) : string :=
  if is_operation_failure e
  then "Operation failed: " ++ exn_str e
  else "Failed to create search index '" ++ index_name ++ "': " ++ exn_str e.

(** The environment in which a [_create_search_index] call started in [s]
    calls its probe: after the collection is ensured and the index checked. *)
Definition probe_env (database_name collection_name index_name : string) (s : Env) : Env :=
  env_after (index_exists database_name collection_name index_name
                          (env_after (create_if_not_exists database_name collection_name s))).
End MoreObservations.

Definition is_aggregate (ev : event) : bool :=
  match ev with EvAggregate _ => true | _ => false end.

Definition is_provider_call (ev : event) : bool :=
  match ev with EvEmbeddingsCreate _ _ _ => true | _ => false end.

Unset Implicit Arguments.

(** ** Properties of [get_embedding] *)

Lemma str_replace_no_old (old new : ascii) (text : string) :
  old <> new -> ~ In old (list_ascii_of_string (str_replace old new text)).
Proof.
  intros Hne. induction text as [|c rest IH]; simpl.
  - tauto.
  - intros [H|H]; [|exact (IH H)].
    destruct (Ascii.eqb c old) eqn:E.
    + congruence.
    + apply Ascii.eqb_neq in E. congruence.
Qed.

Lemma str_replace_same_up_to_newlines (a b : string) :
  same_up_to_newlines a b = true ->
  str_replace LF SP a = str_replace LF SP b.
Proof.
  revert b. induction a as [|c a IH]; intros [|d b]; simpl; try discriminate; auto.
  intros H. apply andb_true_iff in H as [Hc Hrest].
  rewrite (IH _ Hrest). f_equal.
  apply orb_true_iff in Hc as [Hc|Hc].
  - apply Ascii.eqb_eq in Hc. now subst.
  - apply andb_true_iff in Hc as [H1 H2].
    apply orb_true_iff in H1. apply orb_true_iff in H2.
    destruct H1 as [H1|H1], H2 as [H2|H2];
      apply Ascii.eqb_eq in H1; apply Ascii.eqb_eq in H2; subst; reflexivity.
Qed.

Section EmbeddingFacts.
Context {Sv : Services}.

(** The run of [get_embedding], by the provider's answer. *)
Lemma get_embedding_run (text model : string) (dimensions : Z) (s : Env) :
  get_embedding text model dimensions s =
  let request := [str_replace LF SP text] in
  match embeddings_create request model dimensions s with
  | (Ok emb, s1) => Run (Ok emb) s1 [EvEmbeddingsCreate request model dimensions]
  | (Raise e, s1) =>
      Run (Raise e) s1
          [EvEmbeddingsCreate request model dimensions;
           EvLog ERROR ("Error generating embedding: " ++ exn_str e)]
  end.
Proof.
  unfold get_embedding, try_catch, call, bind, log, raise. cbn.
  destruct (embeddings_create _ model dimensions s) as [[emb|e] s1]; reflexivity.
Qed.

(** C10: [get_embedding] sends the provider the text with every newline
    replaced by a space: the request is the first action of the call, it is
    the character-wise replacement of the text and holds no newline, and two
    texts that differ only in newlines versus spaces lead to the same
    request and the same run. *)
Theorem get_embedding_newlines_to_spaces
        (text other model : string) (dimensions : Z) (s : Env) :
  same_up_to_newlines text other = true ->
  (exists rest,
      events (get_embedding text model dimensions s) =
      EvEmbeddingsCreate [str_replace LF SP text] model dimensions :: rest
      /\ Forall (fun ev => match ev with EvLog _ _ => True | _ => False end) rest)
  /\ ~ In LF (list_ascii_of_string (str_replace LF SP text))
  /\ String.length (str_replace LF SP text) = String.length text
  /\ str_replace LF SP text = str_replace LF SP other
  /\ get_embedding text model dimensions s = get_embedding other model dimensions s.
Proof.
  intros Hsame. pose proof (str_replace_same_up_to_newlines _ _ Hsame) as Heq.
  repeat split.
  - rewrite get_embedding_run. cbn.
    destruct (embeddings_create _ model dimensions s) as [[emb|e] s1]; cbn;
      eexists; split; try reflexivity; repeat constructor.
  - apply str_replace_no_old. discriminate.
  - clear. induction text as [|c rest IH]; simpl; congruence.
  - exact Heq.
  - rewrite !get_embedding_run. now rewrite Heq.
Qed.
End EmbeddingFacts.

(** The claim at a text with a newline and its spaced twin. *)
Lemma get_embedding_newlines_to_spaces_witness :
  let text := String "a" (String LF "b") in
  events (get_embedding text "m" 4 Mem.empty) = [EvEmbeddingsCreate ["a b"] "m" 4]
  /\ get_embedding text "m" 4 Mem.empty = get_embedding "a b" "m" 4 Mem.empty.
Proof.
  cbv zeta.
  destruct (@get_embedding_newlines_to_spaces Mem.services
              (String "a" (String LF "b")) "a b" "m" 4 Mem.empty eq_refl)
    as (_ & _ & _ & _ & H).
  split; [reflexivity | exact H].
Defined.

(** ** Properties of [index_exists] *)

Lemma any_name_eq_true (index_name : string) (indexes : list document) :
  any_name_eq index_name indexes = Ok true ->
  existsb (has_name index_name) indexes = true.
Proof.
  induction indexes as [|index rest IH]; simpl; [discriminate|].
  unfold has_name at 1.
  destruct (doc_get "name" index) as [v|]; [|discriminate].
  destruct (value_eq_str v index_name); auto.
Qed.

Lemma any_name_eq_named (index_name : string) (indexes : list document) :
  Forall named indexes ->
  any_name_eq index_name indexes = Ok (existsb (has_name index_name) indexes).
Proof.
  induction 1 as [|index rest Hn _ IH]; simpl; [reflexivity|].
  unfold has_name at 1. unfold named in Hn.
  destruct (doc_get "name" index) as [v|]; [|congruence].
  destruct (value_eq_str v index_name); auto.
Qed.

Section IndexExistsFacts.
Context {Sv : Services}.
Variables database_name collection_name index_name : string.

(** The error line [index_exists] logs for exception [e]. *)
Let failure_line (e : exn) : string :=
  if is_operation_failure e
  then "Operation failure while checking index existence: " ++ exn_str e
  else "Error checking search index existence for '" ++ index_name ++ "': " ++ exn_str e.

(** The run of [index_exists], by the answer of the listing. *)
Lemma index_exists_run (s : Env) :
  index_exists database_name collection_name index_name s =
  let ev := EvListSearchIndexes database_name collection_name in
  match list_search_indexes database_name collection_name s with
  | (Ok indexes, s1) =>
      match any_name_eq index_name indexes with
      | Ok b => Run (Ok b) s1 [ev]
      | Raise e => Run (Ok false) s1 [ev; EvLog ERROR (failure_line e)]
      end
  | (Raise e, s1) => Run (Ok false) s1 [ev; EvLog ERROR (failure_line e)]
  end.
Proof.
  unfold index_exists, try_catch, call, bind, log, ret, lift, failure_line. cbn.
  destruct (list_search_indexes database_name collection_name s) as [[indexes|e] s1]; cbn.
  - destruct (any_name_eq index_name indexes) as [b|e]; cbn; [reflexivity|].
    destruct (is_operation_failure e); reflexivity.
  - destruct (is_operation_failure e); reflexivity.
Qed.

(** [index_exists] always returns a boolean, after one listing and at most
    error lines, and leaves the environment the listing left. *)
Lemma index_exists_shape (s : Env) :
  exists b lines,
    index_exists database_name collection_name index_name s =
    Run (Ok b) (snd (list_search_indexes database_name collection_name s))
        (EvListSearchIndexes database_name collection_name :: map (EvLog ERROR) lines).
Proof.
  rewrite index_exists_run. cbv zeta.
  destruct (list_search_indexes database_name collection_name s) as [[indexes|e] s1]; cbn.
  - destruct (any_name_eq index_name indexes) as [b|e].
    + exists b, []. reflexivity.
    + exists false, [failure_line e]. reflexivity.
  - exists false, [failure_line e]. reflexivity.
Qed.

(** C4: [index_exists] answers [True] only if a listed search index has the
    name [index_name], and, the listed indexes all carrying a name, exactly
    if one has; it answers [False] when the listing itself fails, and it
    never raises. *)
Theorem index_exists_iff_listed (s : Env) :
  (forall indexes s1,
      list_search_indexes database_name collection_name s = (Ok indexes, s1) ->
      (result (index_exists database_name collection_name index_name s) = Ok true ->
       existsb (has_name index_name) indexes = true)
      /\ (Forall named indexes ->
          result (index_exists database_name collection_name index_name s) =
          Ok (existsb (has_name index_name) indexes)))
  /\ (forall e s1,
         list_search_indexes database_name collection_name s = (Raise e, s1) ->
         result (index_exists database_name collection_name index_name s) = Ok false)
  /\ (forall e,
         result (index_exists database_name collection_name index_name s) <> Raise e).
Proof.
  split; [|split].
  - intros indexes s1 H. split.
    + rewrite index_exists_run, H. cbv zeta.
      destruct (any_name_eq index_name indexes) as [b|e] eqn:E; cbn; [|discriminate].
      intros Hb. injection Hb as ->. now apply any_name_eq_true.
    + intros Hnamed. rewrite index_exists_run, H. cbv zeta.
      now rewrite (any_name_eq_named index_name _ Hnamed).
  - intros e s1 H. rewrite index_exists_run, H. reflexivity.
  - intros e. destruct (index_exists_shape s) as (b & lines & ->). discriminate.
Qed.
End IndexExistsFacts.

(** The claim on a database whose listing holds the index, and on one whose
    listing fails. *)
Lemma index_exists_iff_listed_witness :
  result (index_exists "kb" "docs" "vec_idx" (Mem.kb 0 [])) = Ok true
  /\ result (index_exists "kb" "docs" "other" (Mem.kb 0 [])) = Ok false
  /\ result (index_exists "kb" "docs" "vec_idx" (Mem.listing_down (Mem.kb 0 []))) = Ok false.
Proof.
  destruct (index_exists_iff_listed (Sv := Mem.services) "kb" "docs" "vec_idx" (Mem.kb 0 [])) as (Hok & _ & _).
  destruct (index_exists_iff_listed (Sv := Mem.services) "kb" "docs" "other" (Mem.kb 0 [])) as (Hok' & _ & _).
  destruct (index_exists_iff_listed (Sv := Mem.services) "kb" "docs" "vec_idx" (Mem.listing_down (Mem.kb 0 [])))
    as (_ & Hfail & _).
  split; [|split].
  - apply (Hok [[("name", VStr "vec_idx")]] (Mem.kb 0 []) eq_refl).
    repeat constructor. discriminate.
  - apply (Hok' [[("name", VStr "vec_idx")]] (Mem.kb 0 []) eq_refl).
    repeat constructor. discriminate.
  - exact (Hfail _ _ eq_refl).
Defined.

(** ** Properties of [create_if_not_exists] *)

Section CollectionFacts.
Context {Sv : Services}.
Variables database_name collection_name : string.

(** The run of [create_if_not_exists] on a database that lists the
    collection. *)
Lemma create_if_not_exists_present (s s1 : Env) (names : list string) :
  list_collection_names database_name s = (Ok names, s1) ->
  str_in collection_name names = true ->
  create_if_not_exists database_name collection_name s =
  Run (Ok (database_name, collection_name)) s1 [EvListCollectionNames database_name].
Proof.
  intros Hl Hin. unfold create_if_not_exists, bind, call, ret.
  rewrite Hl, Hin. reflexivity.
Qed.

(** The run on a database that does not list it, both writes succeeding. *)
Lemma create_if_not_exists_absent (s s1 s2 s3 : Env) (names : list string) :
  list_collection_names database_name s = (Ok names, s1) ->
  str_in collection_name names = false ->
  insert_one database_name collection_name placeholder_doc s1 = (Ok tt, s2) ->
  delete_one database_name collection_name placeholder_filter s2 = (Ok tt, s3) ->
  create_if_not_exists database_name collection_name s =
  Run (Ok (database_name, collection_name)) s3
      [EvListCollectionNames database_name;
       EvLog INFO ("Collection '" ++ collection_name ++ "' does not exist. Creating it now.");
       EvInsertOne database_name collection_name placeholder_doc;
       EvDeleteOne database_name collection_name placeholder_filter;
       EvLog INFO ("Collection '" ++ collection_name ++ "' created successfully.")].
Proof.
  intros Hl Hin Hi Hd. unfold create_if_not_exists, bind, call, ret, log.
  rewrite Hl, Hin. cbn. rewrite Hi, Hd. reflexivity.
Qed.

(** Whatever the database answers, [create_if_not_exists] creates no search
    index, checks none and probes no embedding. *)
Lemma create_if_not_exists_quiet (s : Env) :
  Forall (fun ev => is_creation ev = false /\ is_check ev = false /\ is_probe ev = false)
         (events (create_if_not_exists database_name collection_name s)).
Proof.
  unfold create_if_not_exists, bind, call, ret, log.
  destruct (list_collection_names database_name s) as [[names|e] s1]; cbn;
    [|repeat constructor].
  destruct (str_in collection_name names); cbn; [repeat constructor|].
  destruct (insert_one _ _ _ s1) as [[[]|e] s2]; cbn; [|repeat constructor].
  destruct (delete_one _ _ _ s2) as [[[]|e] s3]; cbn; repeat constructor.
Qed.

(** C3: on a database that does not list the collection,
    [create_if_not_exists] writes exactly one insert and one delete of the
    placeholder with [_id] 0, in that order, and the collection is listed
    afterward (the database materialising collections on insert and keeping
    them on delete); on a database that lists it, it writes nothing. *)
Theorem create_if_not_exists_writes (s s1 : Env) (names : list string) :
  list_collection_names database_name s = (Ok names, s1) ->
  let r := create_if_not_exists database_name collection_name s in
  (str_in collection_name names = false ->
   forall s2 s3,
     insert_one database_name collection_name placeholder_doc s1 = (Ok tt, s2) ->
     delete_one database_name collection_name placeholder_filter s2 = (Ok tt, s3) ->
     result r = Ok (database_name, collection_name)
     /\ writes (events r) =
        [EvInsertOne database_name collection_name [("_id", VInt 0); ("placeholder", VBool true)];
         EvDeleteOne database_name collection_name [("_id", VInt 0)]]
     /\ env_after r = s3
     /\ (insert_materialises -> delete_keeps_collections ->
         listed database_name collection_name (env_after r)))
  /\ (str_in collection_name names = true ->
      result r = Ok (database_name, collection_name)
      /\ writes (events r) = []
      /\ env_after r = s1).
Proof.
  intros Hl r. subst r. split.
  - intros Hin s2 s3 Hi Hd.
    rewrite (create_if_not_exists_absent _ _ _ _ _ Hl Hin Hi Hd). cbn.
    repeat split.
    intros Hmat Hkeep. eapply Hkeep; [exact Hd|]. eapply Hmat. exact Hi.
  - intros Hin. rewrite (create_if_not_exists_present _ _ _ Hl Hin). cbn. auto.
Qed.
End CollectionFacts.

(** The in-memory database materialises collections on insert. *)
Lemma mem_insert_materialises : insert_materialises (Sv := Mem.services).
Proof.
  intros db c d s s1 H. cbn in H. unfold Mem.insert_one in H.
  injection H as <-.
  exists (map snd (filter (fun p => String.eqb (fst p) db)
                          (Mem.collections
                             (if existsb (Mem.pair_eqb (db, c)) (Mem.collections s) then s
                              else {| Mem.collections := (Mem.collections s ++ [(db, c)])%list;
                                      Mem.indexes := Mem.indexes s;
                                      Mem.hidden_checks := Mem.hidden_checks s;
                                      Mem.listing_fails := Mem.listing_fails s;
                                      Mem.provider_up := Mem.provider_up s;
                                      Mem.records := Mem.records s |})))).
  eexists. split; [reflexivity|].
  unfold str_in. apply existsb_exists. exists c. split; [|apply String.eqb_refl].
  apply in_map_iff. exists (db, c). split; [reflexivity|].
  apply filter_In. cbn. rewrite String.eqb_refl. split; [|reflexivity].
  destruct (existsb (Mem.pair_eqb (db, c)) (Mem.collections s)) eqn:E; cbn.
  - apply existsb_exists in E as ([db' c'] & Hin & Heq).
    unfold Mem.pair_eqb in Heq. cbn in Heq. apply andb_true_iff in Heq as [H1 H2].
    apply String.eqb_eq in H1, H2. now subst.
  - apply in_or_app. right. now left.
Qed.

(** It keeps them when a document is deleted. *)
Lemma mem_delete_keeps_collections : delete_keeps_collections (Sv := Mem.services).
Proof.
  intros db c f s s1 H c' Hl. cbn in H. unfold Mem.delete_one in H.
  injection H as <-. exact Hl.
Qed.

(** The claim on an empty database, and again once the collection is there. *)
Lemma create_if_not_exists_writes_witness :
  let r := create_if_not_exists "kb" "docs" Mem.empty in
  writes (events r) =
  [EvInsertOne "kb" "docs" placeholder_doc; EvDeleteOne "kb" "docs" placeholder_filter]
  /\ listed "kb" "docs" (env_after r)
  /\ writes (events (create_if_not_exists "kb" "docs" (env_after r))) = [].
Proof.
  cbv zeta.
  destruct (create_if_not_exists_writes (Sv := Mem.services) "kb" "docs"
              Mem.empty Mem.empty [] eq_refl) as [Habsent _].
  destruct (Habsent eq_refl _ _ eq_refl eq_refl)
    as (_ & Hw & _ & Hlisted).
  destruct (create_if_not_exists_writes (Sv := Mem.services) "kb" "docs"
              (env_after (create_if_not_exists "kb" "docs" Mem.empty))
              (env_after (create_if_not_exists "kb" "docs" Mem.empty))
              ["docs"] eq_refl) as [_ Hpresent].
  destruct (Hpresent eq_refl) as (_ & Hw' & _).
  split; [exact Hw|split; [|exact Hw']].
  exact (Hlisted mem_insert_materialises mem_delete_keeps_collections).
Defined.

(** ** Properties of [_create_search_index] *)

Lemma filter_none {A : Type} (f : A -> bool) (l : list A) :
  Forall (fun x => f x = false) l -> filter f l = [].
Proof.
  induction 1 as [|x l Hx _ IH]; simpl; [reflexivity|]. now rewrite Hx.
Qed.

Lemma filter_log_lines (f : event -> bool) (level : log_level) (lines : list string) :
  (forall m, f (EvLog level m) = false) -> filter f (map (EvLog level) lines) = [].
Proof.
  intros Hf. apply filter_none. apply Forall_forall.
  intros ev Hin. apply in_map_iff in Hin as (m & <- & _). apply Hf.
Qed.

Section SearchIndexFacts.
Context {Sv : Services}.
Variables database_name collection_name index_name : string.
Variable get_embedding : string -> Env -> outcome embedding * Env.
Variable distance_metric : string.

Lemma create_if_not_exists_no_creation (s : Env) :
  creations (events (create_if_not_exists database_name collection_name s)) = []
  /\ filter is_probe (events (create_if_not_exists database_name collection_name s)) = [].
Proof.
  pose proof (create_if_not_exists_quiet database_name collection_name s) as Hq.
  split; apply filter_none; eapply Forall_impl; try exact Hq; cbn; tauto.
Qed.

(** A call whose existence check reports the index present does nothing
    more: no probe, no creation. *)
Lemma create_search_index_present (s : Env) :
  existence_check database_name collection_name index_name s = Some true ->
  let r := _create_search_index database_name collection_name index_name
                                get_embedding distance_metric s in
  result r = Ok tt /\ creations (events r) = [] /\ filter is_probe (events r) = [].
Proof.
  intros H r. subst r. unfold existence_check in H.
  destruct (create_if_not_exists_no_creation s) as [Hc Hp].
  unfold _create_search_index, try_catch, bind.
  destruct (create_if_not_exists database_name collection_name s) as [[h|e] s1 t1];
    [|discriminate].
  destruct (index_exists_shape database_name collection_name index_name s1)
    as (b & lines & Hrun).
  rewrite Hrun in *. cbn in H. injection H as ->. cbn in *.
  unfold creations in *.
  rewrite !filter_app, Hc, Hp. cbn.
  rewrite !filter_app, !filter_log_lines by reflexivity. auto.
Qed.

(** A call whose existence check reports the index absent, and that returns,
    has made exactly one creation call, for an index of the given name. *)
Lemma create_search_index_absent (s : Env) :
  existence_check database_name collection_name index_name s = Some false ->
  let r := _create_search_index database_name collection_name index_name
                                get_embedding distance_metric s in
  result r = Ok tt ->
  exists num_dimensions,
    creations (events r) =
    [EvCreateSearchIndex database_name collection_name
       (search_index_model index_name num_dimensions distance_metric)].
Proof.
  intros H r. subst r. unfold existence_check in H.
  destruct (create_if_not_exists_no_creation s) as [Hc _].
  unfold _create_search_index, try_catch, bind.
  destruct (create_if_not_exists database_name collection_name s) as [[h|e] s1 t1];
    [|discriminate].
  destruct (index_exists_shape database_name collection_name index_name s1)
    as (b & lines & Hrun).
  rewrite Hrun in *. cbn in H. injection H as ->. cbn in *.
  unfold call, lift, log, raise.
  destruct (get_embedding "0" _) as [[probe|e] s3]; cbn.
  2: { destruct (is_operation_failure e); cbn; discriminate. }
  destruct (py_len probe) as [dims|e] eqn:Hlen; cbn.
  2: { destruct (is_operation_failure e); cbn; discriminate. }
  destruct (create_search_index _ _ _ s3) as [[[]|e] s4]; cbn.
  2: { destruct (is_operation_failure e); cbn; discriminate. }
  intros _. exists dims. unfold creations in *.
  rewrite !filter_app, Hc. cbn.
  rewrite !filter_app, !filter_log_lines by reflexivity. reflexivity.
Qed.

(** C2: [_create_search_index] called twice with the same arguments, the
    index absent at the first call's existence check, the first call
    returning, and the index reported present at the second call's check:
    the second call returns without probing or creating anything, and the
    two calls together made exactly one index-creation call. *)
Theorem create_search_index_idempotent (s : Env) :
  let r1 := _create_search_index database_name collection_name index_name
                                 get_embedding distance_metric s in
  let r2 := _create_search_index database_name collection_name index_name
                                 get_embedding distance_metric (env_after r1) in
  existence_check database_name collection_name index_name s = Some false ->
  result r1 = Ok tt ->
  existence_check database_name collection_name index_name (env_after r1) = Some true ->
  result r2 = Ok tt
  /\ creations (events r2) = []
  /\ filter is_probe (events r2) = []
  /\ exists model,
      creations (events r1 ++ events r2) =
      [EvCreateSearchIndex database_name collection_name model]
      /\ sim_name model = index_name.
Proof.
  intros r1 r2 Habsent Hok Hpresent.
  destruct (create_search_index_present _ Hpresent) as (Hr2 & Hc2 & Hp2).
  destruct (create_search_index_absent _ Habsent Hok) as (dims & Hc1).
  fold r1 in Hc1. fold r2 in Hr2, Hc2, Hp2.
  repeat split; trivial.
  eexists. unfold creations in *. rewrite filter_app, Hc1, Hc2. cbn.
  split; reflexivity.
Qed.
End SearchIndexFacts.

(** The claim on an empty in-memory database, the provider as the probe. *)
Lemma create_search_index_idempotent_witness :
  let r1 := _create_search_index "kb" "docs" "vec_idx" Mem.probe "cosine" Mem.empty in
  let r2 := _create_search_index "kb" "docs" "vec_idx" Mem.probe "cosine" (env_after r1) in
  result r2 = Ok tt
  /\ creations (events r1 ++ events r2) =
     [EvCreateSearchIndex "kb" "docs" (search_index_model "vec_idx" 256 "cosine")].
Proof.
  cbv zeta.
  destruct (create_search_index_idempotent (Sv := Mem.services)
              "kb" "docs" "vec_idx" Mem.probe "cosine" Mem.empty
              eq_refl eq_refl eq_refl) as (Hr2 & _ & _ & _).
  split; [exact Hr2 | reflexivity].
Defined.

(** ** The readiness-polling loop *)

Section PollingFacts.
Context {Sv : Services}.
Variables database_name collection_name index_name : string.

Abbreviation poll fuel max a s :=
  (wait_for_index fuel max a database_name collection_name index_name s).
Abbreviation check_ev := (EvListSearchIndexes database_name collection_name).

(** One turn of the loop. *)
Lemma wait_for_index_step (fuel : nat) (max a : Z) (s : Env) :
  poll (S fuel) max a s =
  match index_exists database_name collection_name index_name s with
  | Run (Ok true) s1 t1 => Run (Ok (Some Ready)) s1 (t1 ++ [])
  | Run (Ok false) s1 t1 =>
      if a + 1 >? max then
        Run (Ok (Some TimedOut)) s1
            (t1 ++ [EvLog ERROR "Search index creation timed out after waiting."])
      else
        match poll fuel max (a + 1) (sleep 1 s1) with
        | Run r s2 t2 =>
            Run r s2
                (t1 ++ EvLog INFO ("Attempt " ++ str_of_int (a + 1) ++ ": Search index '"
                                   ++ index_name ++ "' not ready yet. Waiting...")
                    :: EvSleep 1 :: t2)
        end
  | Run (Raise e) s1 t1 => Run (Raise e) s1 t1
  end.
Proof.
  cbn [wait_for_index]. unfold bind at 1.
  destruct (index_exists database_name collection_name index_name s) as [[[|]|e] s1 t1];
    cbn [negb]; try reflexivity.
  destruct (a + 1 >? max); [reflexivity|].
  unfold bind, log, time_sleep.
  destruct (poll fuel max (a + 1) (sleep 1 s1)) as [r s2 t2]. reflexivity.
Qed.

(** What one check contributes to the schedule and to the count of checks. *)
Lemma schedule_check_lines (lines : list string) (rest : list event) :
  schedule ((check_ev :: map (EvLog ERROR) lines) ++ rest) = check_ev :: schedule rest
  /\ filter is_check ((check_ev :: map (EvLog ERROR) lines) ++ rest) =
     check_ev :: filter is_check rest.
Proof.
  unfold schedule. cbn. rewrite !filter_app, !filter_log_lines by reflexivity.
  split; reflexivity.
Qed.

(** The index visible after [j] failed checks, within the attempt budget:
    the loop ends [Ready] after [j + 1] checks. *)
Lemma wait_for_index_ready (j : nat) :
  forall (fuel : nat) (max a : Z) (s : Env),
    (j < fuel)%nat ->
    a + Z.of_nat j <= max ->
    visible_after j database_name collection_name index_name s = true ->
    result (poll fuel max a s) = Ok (Some Ready)
    /\ schedule (events (poll fuel max a s)) =
       checks_with_waits database_name collection_name (S j)
    /\ List.length (filter is_check (events (poll fuel max a s))) = S j.
Proof.
  induction j as [|j IH]; intros [|fuel] max a s Hfuel Hbudget Hvis; try lia;
    rewrite wait_for_index_step; cbn [visible_after] in Hvis;
    unfold check, next_check in Hvis;
    destruct (index_exists_shape database_name collection_name index_name s)
      as (b & lines & Hrun); rewrite Hrun in *; cbn [result env_after] in Hvis.
  - subst b. destruct (schedule_check_lines lines []) as [Hs Hc].
    cbn [result events]. rewrite Hs, Hc. auto.
  - apply andb_true_iff in Hvis as [Hb Hvis]. destruct b; [discriminate|].
    replace (a + 1 >? max) with false by (symmetry; rewrite Z.gtb_ltb; apply Z.ltb_ge; lia).
    assert (Hfuel' : (j < fuel)%nat) by lia.
    assert (Hbudget' : a + 1 + Z.of_nat j <= max) by lia.
    destruct (IH fuel max (a + 1) _ Hfuel' Hbudget' Hvis) as (Hr & Hs & Hc).
    destruct (poll fuel max (a + 1) _) as [r s2 t2]. cbn [result events] in *.
    destruct (schedule_check_lines lines
                (EvLog INFO ("Attempt " ++ str_of_int (a + 1) ++ ": Search index '"
                             ++ index_name ++ "' not ready yet. Waiting...")
                   :: EvSleep 1 :: t2)) as [Hs' Hc'].
    rewrite Hs', Hc'. unfold schedule in *.
    cbn [filter is_check is_sleep orb List.length]. rewrite Hs, Hc. auto.
Qed.

(** The index absent for [d + 1] checks with [d] attempts left: the loop
    ends [TimedOut] after [d + 1] checks. *)
Lemma wait_for_index_timed_out (d : nat) :
  forall (fuel : nat) (max a : Z) (s : Env),
    (d < fuel)%nat ->
    a + Z.of_nat d = max ->
    hidden_for (S d) database_name collection_name index_name s = true ->
    result (poll fuel max a s) = Ok (Some TimedOut)
    /\ schedule (events (poll fuel max a s)) =
       checks_with_waits database_name collection_name (S d)
    /\ List.length (filter is_check (events (poll fuel max a s))) = S d.
Proof.
  induction d as [|d IH]; intros [|fuel] max a s Hfuel Hbudget Hhid; try lia;
    rewrite wait_for_index_step; cbn [hidden_for] in Hhid;
    unfold check, next_check in Hhid;
    destruct (index_exists_shape database_name collection_name index_name s)
      as (b & lines & Hrun); rewrite Hrun in *; cbn [result env_after] in Hhid;
    apply andb_true_iff in Hhid as [Hb Hhid]; (destruct b; [discriminate|]).
  - replace (a + 1 >? max) with true by (symmetry; rewrite Z.gtb_ltb; apply Z.ltb_lt; lia).
    destruct (schedule_check_lines lines
                [EvLog ERROR "Search index creation timed out after waiting."])
      as [Hs Hc].
    cbn [result events]. rewrite Hs, Hc. auto.
  - replace (a + 1 >? max) with false by (symmetry; rewrite Z.gtb_ltb; apply Z.ltb_ge; lia).
    assert (Hfuel' : (d < fuel)%nat) by lia.
    assert (Hbudget' : a + 1 + Z.of_nat d = max) by lia.
    destruct (IH fuel max (a + 1) _ Hfuel' Hbudget' Hhid) as (Hr & Hs & Hc).
    destruct (poll fuel max (a + 1) _) as [r s2 t2]. cbn [result events] in *.
    destruct (schedule_check_lines lines
                (EvLog INFO ("Attempt " ++ str_of_int (a + 1) ++ ": Search index '"
                             ++ index_name ++ "' not ready yet. Waiting...")
                   :: EvSleep 1 :: t2)) as [Hs' Hc'].
    rewrite Hs', Hc'. unfold schedule in *.
    cbn [filter is_check is_sleep orb List.length]. rewrite Hs, Hc. auto.
Qed.

(** C7: the polling loop with a maximum of [max] attempts, given fuel for
    [max + 1] checks, checks existence at one-second intervals; when the index
    becomes visible on the [k]-th check, [1 <= k <= max], it ends [Ready]
    after exactly [k] checks, and when the index stays invisible it ends
    [TimedOut] after exactly [max + 1] checks. *)
Theorem wait_for_index_checks (max : Z) (fuel : nat) (s : Env) :
  0 <= max ->
  (Z.to_nat max < fuel)%nat ->
  let r := poll fuel max 0 s in
  (forall k : nat,
      (1 <= k)%nat -> Z.of_nat k <= max ->
      visible_on_check k database_name collection_name index_name s = true ->
      result r = Ok (Some Ready)
      /\ schedule (events r) = checks_with_waits database_name collection_name k
      /\ List.length (filter is_check (events r)) = k)
  /\ (hidden_for (Z.to_nat max + 1) database_name collection_name index_name s = true ->
      result r = Ok (Some TimedOut)
      /\ schedule (events r) =
         checks_with_waits database_name collection_name (Z.to_nat max + 1)
      /\ List.length (filter is_check (events r)) = (Z.to_nat max + 1)%nat).
Proof.
  intros Hmax Hfuel r. subst r. split.
  - intros [|j] Hk Hle Hvis; [lia|]. cbn [visible_on_check] in Hvis.
    apply wait_for_index_ready; trivial; lia.
  - rewrite Nat.add_1_r. intros Hhid.
    apply wait_for_index_timed_out; trivial; lia.
Qed.
End PollingFacts.

(** The claim with three attempts: an index that shows on the second check,
    and one that never shows. *)
Lemma wait_for_index_checks_witness :
  let seen := wait_for_index 4 3 0 "kb" "docs" "vec_idx" (Mem.kb 1 []) in
  let unseen := wait_for_index 4 3 0 "kb" "docs" "vec_idx" Mem.empty in
  (result seen = Ok (Some Ready) /\ List.length (filter is_check (events seen)) = 2%nat)
  /\ (result unseen = Ok (Some TimedOut)
      /\ List.length (filter is_check (events unseen)) = 4%nat).
Proof.
  cbv zeta.
  destruct (wait_for_index_checks (Sv := Mem.services) "kb" "docs" "vec_idx"
              3 4 (Mem.kb 1 []) ltac:(lia) ltac:(cbn; lia)) as [Hready _].
  destruct (wait_for_index_checks (Sv := Mem.services) "kb" "docs" "vec_idx"
              3 4 Mem.empty ltac:(lia) ltac:(cbn; lia)) as [_ Htimeout].
  destruct (Hready 2%nat ltac:(lia) ltac:(lia) eq_refl) as (H1 & _ & H2).
  destruct (Htimeout eq_refl) as (H3 & _ & H4).
  repeat split; assumption.
Defined.

(** ** Properties of [search] *)

Section RecordFacts.
Context {Sv : Services}.

Lemma to_document_built (raw : document) :
  doc_get "_id" raw <> None -> doc_get "content" raw <> None ->
  exists d, to_document raw = Ok d /\ built_from raw d.
Proof.
  intros Hid Hc. unfold to_document, doc_item.
  destruct (doc_get "_id" raw) as [id|] eqn:Eid; [|congruence].
  destruct (doc_get "content" raw) as [content|] eqn:Ec; [|congruence].
  eexists. split; [reflexivity|]. exists id. cbn. rewrite Ec. auto.
Qed.

Lemma to_document_same_read_keys (a b : document) :
  same_read_keys a b -> to_document a = to_document b.
Proof.
  intros (Hid & Hn & Hc & Hm).
  unfold to_document, doc_item, doc_get_default. now rewrite Hid, Hn, Hc, Hm.
Qed.

(** The mapping loop builds one [Document] per record, in order. *)
Lemma map_records_built (agg : list document) :
  Forall (fun raw => doc_get "_id" raw <> None /\ doc_get "content" raw <> None) agg ->
  forall acc, exists docs,
      map_records agg acc = Ok (acc ++ docs)%list /\ Forall2 built_from agg docs.
Proof.
  induction 1 as [|raw agg [Hid Hc] _ IH]; intros acc; cbn.
  - exists []. rewrite app_nil_r. auto.
  - destruct (to_document_built raw Hid Hc) as (d & -> & Hb).
    destruct (IH (acc ++ [d])%list) as (docs & -> & Hall).
    exists (d :: docs). rewrite <- app_assoc. auto.
Qed.

Lemma map_records_same_read_keys (agg agg' : list document) :
  Forall2 same_read_keys agg agg' ->
  forall acc, map_records agg acc = map_records agg' acc.
Proof.
  induction 1 as [|a b agg agg' Hab _ IH]; intros acc; cbn; [reflexivity|].
  rewrite (to_document_same_read_keys a b Hab).
  destruct (to_document b); auto.
Qed.

(** The run of the [try] block, by the answers of its collaborators. *)
Lemma search_try_run (query index_name : string) (s : Env) :
  search_try query index_name s =
  match embedder_get_embedding query s with
  | (Raise e, s1) => Run (Raise e) s1 [EvEmbedderGetEmbedding query]
  | (Ok qv, s1) =>
      let pipeline := search_pipeline index_name qv in
      match collection_aggregate pipeline s1 with
      | (Raise e, s2) =>
          Run (Raise e) s2 [EvEmbedderGetEmbedding query; EvAggregate pipeline]
      | (Ok agg, s2) =>
          match map_records agg [] with
          | Raise e =>
              Run (Raise e) s2 [EvEmbedderGetEmbedding query; EvAggregate pipeline]
          | Ok docs =>
              Run (Ok docs) s2
                  [EvEmbedderGetEmbedding query; EvAggregate pipeline;
                   EvLog INFO ("Search completed. Found "
                               ++ str_of_int (Z.of_nat (List.length docs))
                               ++ " documents.")]
          end
      end
  end.
Proof.
  unfold search_try, bind, call, lift, log, ret.
  destruct (embedder_get_embedding query s) as [[qv|e] s1]; [|reflexivity].
  cbv zeta.
  destruct (collection_aggregate (search_pipeline index_name qv) s1) as [[agg|e] s2];
    [|reflexivity].
  destruct (map_records agg []) as [docs|e]; reflexivity.
Qed.

(** The run of [search], by the runs of its three parts. *)
Lemma search_run (query : string) (limit : Z)
      (database_name collection_name index_name : string)
      (filters : option document) (s : Env) :
  search query limit database_name collection_name index_name filters s =
  match get_embedding query default_model default_dimensions s with
  | Run (Raise e) s1 t1 => Run (Raise e) s1 t1
  | Run (Ok query_embedding) s1 t1 =>
      match index_exists database_name collection_name index_name s1 with
      | Run (Raise e) s2 t2 => Run (Raise e) s2 (t1 ++ t2)
      | Run (Ok false) s2 t2 =>
          Run (Ok []) s2
              (t1 ++ t2 ++ [EvLog ERROR ("Index " ++ index_name ++ " does not exist.")])
      | Run (Ok true) s2 t2 =>
          match query_embedding with
          | None =>
              Run (Ok []) s2
                  (t1 ++ t2
                      ++ [EvLog ERROR ("Failed to generate embedding for query: " ++ query)])
          | Some _ =>
              match search_try query index_name s2 with
              | Run (Ok docs) s3 t3 => Run (Ok docs) s3 (t1 ++ t2 ++ t3)
              | Run (Raise e) s3 t3 =>
                  Run (Ok []) s3
                      (t1 ++ t2 ++ t3
                          ++ [EvLog ERROR ("Error during search: " ++ exn_str e)])
              end
          end
      end
  end%list.
Proof.
  unfold search. unfold bind at 1.
  destruct (get_embedding query default_model default_dimensions s)
    as [[query_embedding|e] s1 t1]; [|reflexivity].
  unfold bind at 1.
  destruct (index_exists database_name collection_name index_name s1)
    as [[[|]|e] s2 t2]; cbn [negb]; try reflexivity.
  destruct query_embedding as [emb|]; [|reflexivity].
  unfold try_catch.
  destruct (search_try query index_name s2) as [[docs|e] s3 t3]; reflexivity.
Qed.
End RecordFacts.

Section SearchFacts.
Context {Sv : Services}.
Variable query : string.
Variable limit : Z.
Variables database_name collection_name index_name : string.

Abbreviation search_with filters s :=
  (search query limit database_name collection_name index_name filters s).
Abbreviation request := [str_replace LF SP query].

(** C1, as the code has it: [search] asks the provider for the query's
    embedding first.  When that succeeds and the existence check then
    reports the index absent, [search] returns the empty list, having called
    the provider once before the check and gone no further than logging the
    missing index; when the provider fails, [search] raises the provider's
    exception without checking the index at all. *)
Theorem search_missing_index (filters : option document) (s : Env) :
  (forall emb s1,
      embeddings_create request default_model default_dimensions s = (Ok emb, s1) ->
      result (index_exists database_name collection_name index_name s1) = Ok false ->
      result (search_with filters s) = Ok []
      /\ events (search_with filters s) =
         (EvEmbeddingsCreate request default_model default_dimensions
            :: events (index_exists database_name collection_name index_name s1)
            ++ [EvLog ERROR ("Index " ++ index_name ++ " does not exist.")])%list)
  /\ (forall e s1,
         embeddings_create request default_model default_dimensions s = (Raise e, s1) ->
         result (search_with filters s) = Raise e
         /\ events (search_with filters s) =
            [EvEmbeddingsCreate request default_model default_dimensions;
             EvLog ERROR ("Error generating embedding: " ++ exn_str e)]).
Proof.
  split.
  - intros emb s1 Hemb Habsent.
    rewrite search_run, get_embedding_run. cbv zeta. rewrite Hemb.
    destruct (index_exists database_name collection_name index_name s1)
      as [r s2 t2]. cbn in Habsent. subst r. cbn. auto.
  - intros e s1 Hemb.
    rewrite search_run, get_embedding_run. cbv zeta. rewrite Hemb. cbn. auto.
Qed.

(** C5: every exception raised inside the [try] block of [search] - by the
    query-vector call, the aggregation, or the mapping of a raw record - is
    logged and answered with the empty list; the only exceptions [search]
    lets through are those [get_embedding] raised before the block. *)
Theorem search_swallows_pipeline_errors (filters : option document) (s : Env) :
  (forall emb s1 t1 s2 t2 e,
      get_embedding query default_model default_dimensions s = Run (Ok (Some emb)) s1 t1 ->
      index_exists database_name collection_name index_name s1 = Run (Ok true) s2 t2 ->
      result (search_try query index_name s2) = Raise e ->
      result (search_with filters s) = Ok []
      /\ events (search_with filters s) =
         (t1 ++ t2 ++ events (search_try query index_name s2)
             ++ [EvLog ERROR ("Error during search: " ++ exn_str e)])%list)
  /\ (forall qv s3 agg s4 e s2,
         embedder_get_embedding query s2 = (Ok qv, s3) ->
         collection_aggregate (search_pipeline index_name qv) s3 = (Ok agg, s4) ->
         map_records agg [] = Raise e ->
         result (search_try query index_name s2) = Raise e)
  /\ (forall e,
         result (search_with filters s) = Raise e ->
         result (get_embedding query default_model default_dimensions s) = Raise e).
Proof.
  split; [|split].
  - intros emb s1 t1 s2 t2 e Hemb Hidx Htry.
    rewrite search_run, Hemb, Hidx.
    destruct (search_try query index_name s2) as [r s3 t3]. cbn in Htry. subst r.
    cbn. auto.
  - intros qv s3 agg s4 e s2 Hqv Hagg Hmap.
    rewrite search_try_run, Hqv. cbv zeta. rewrite Hagg, Hmap. reflexivity.
  - intros e. rewrite search_run.
    destruct (get_embedding query default_model default_dimensions s)
      as [[query_embedding|e'] s1 t1]; [|cbn; intros H; injection H as ->; reflexivity].
    destruct (index_exists_shape database_name collection_name index_name s1)
      as (b & lines & ->).
    destruct b; [|discriminate].
    destruct query_embedding; [|discriminate].
    destruct (search_try query index_name _) as [[docs|e''] s3 t3]; discriminate.
Qed.

(** C8, as the code has it: a search that gets through - embedding, index
    present, query vector, aggregation, every record with an ["_id"] and a
    ["content"] - returns one [Document] per raw record, in the order the
    aggregation returned them, each built from the record's ["_id"],
    ["name"], ["content"] and ["meta_data"] alone; the pipeline attaches the
    ["score"] from the [vectorSearchScore] metadata and projects the
    ["embedding"] away, and neither is copied into a [Document]. *)
Theorem search_results_follow_records
        (filters : option document) (s s1 s2 s3 s4 : Env) (t1 t2 : list event)
        (emb : list spec_float) (qv : value) (agg : list document) :
  get_embedding query default_model default_dimensions s = Run (Ok (Some emb)) s1 t1 ->
  index_exists database_name collection_name index_name s1 = Run (Ok true) s2 t2 ->
  embedder_get_embedding query s2 = (Ok qv, s3) ->
  collection_aggregate (search_pipeline index_name qv) s3 = (Ok agg, s4) ->
  Forall (fun raw => doc_get "_id" raw <> None /\ doc_get "content" raw <> None) agg ->
  exists docs,
    result (search_with filters s) = Ok docs
    /\ Forall2 built_from agg docs
    /\ (forall agg', Forall2 same_read_keys agg agg' -> map_records agg' [] = Ok docs)
    /\ stage_field "$set" "score" (search_pipeline index_name qv) =
       Some (VDict [("$meta", VStr "vectorSearchScore")])
    /\ stage_field "$project" "embedding" (search_pipeline index_name qv) = Some (VInt 0).
Proof.
  intros Hemb Hidx Hqv Hagg Hrecords.
  destruct (map_records_built agg Hrecords []) as (docs & Hmap & Hbuilt).
  cbn in Hmap. exists docs.
  rewrite search_run, Hemb, Hidx, search_try_run, Hqv. cbv zeta.
  rewrite Hagg, Hmap. cbn [result].
  repeat split; trivial.
  intros agg' Hsame. now rewrite <- (map_records_same_read_keys agg agg' Hsame).
Qed.

(** C9: [filters] has no effect: two calls of [search] that differ only in
    [filters] have the same run - the same result, the same calls in the same
    order (the aggregation pipeline among them), the same environment
    afterward. *)
Theorem search_ignores_filters (filters filters' : option document) (s : Env) :
  search_with filters s = search_with filters' s
  /\ result (search_with filters s) = result (search_with filters' s)
  /\ filter (fun ev => match ev with EvAggregate _ => true | _ => false end)
            (events (search_with filters s)) =
     filter (fun ev => match ev with EvAggregate _ => true | _ => false end)
            (events (search_with filters' s)).
Proof.
  assert (H : search_with filters s = search_with filters' s)
    by (rewrite !search_run; reflexivity).
  now rewrite H.
Qed.
End SearchFacts.

(** The amended C1 on a database without the index. *)
Lemma search_missing_index_witness :
  result (search "hello" 5 "kb" "docs" "nope" None (Mem.kb 0 [])) = Ok []
  /\ result (search "hello" 5 "kb" "docs" "nope" None (Mem.provider_down (Mem.kb 0 []))) =
     Raise (Exception "provider unavailable").
Proof.
  destruct (search_missing_index (Sv := Mem.services)
              "hello" 5 "kb" "docs" "nope" None (Mem.kb 0 [])) as [Hok _].
  destruct (search_missing_index (Sv := Mem.services)
              "hello" 5 "kb" "docs" "nope" None (Mem.provider_down (Mem.kb 0 [])))
    as [_ Hfail].
  split.
  - exact (proj1 (Hok _ _ eq_refl eq_refl)).
  - exact (proj1 (Hfail _ _ eq_refl)).
Defined.

(** C1 as stated fails: with the index absent and the provider down,
    [search] raises instead of returning the empty list; and with the
    provider up, the provider is called before the index is checked. *)
Lemma search_missing_index_embeds_first :
  let absent := Mem.provider_down (Mem.kb 0 []) in
  result (index_exists "kb" "docs" "nope" absent) = Ok false
  /\ result (search "hello" 5 "kb" "docs" "nope" None absent) =
     Raise (Exception "provider unavailable")
  /\ events (search "hello" 5 "kb" "docs" "nope" None (Mem.kb 0 [])) =
     [EvEmbeddingsCreate ["hello"] "text-embedding-3-small" 256;
      EvListSearchIndexes "kb" "docs";
      EvLog ERROR "Index nope does not exist."].
Proof.
  cbv zeta. repeat split; reflexivity.
Qed.

(** C5 on a record without ["content"]: the [KeyError] of the mapping is
    swallowed. *)
Lemma search_swallows_pipeline_errors_witness :
  let s := Mem.kb 0 [[("_id", VInt 1)]] in
  result (search_try "hello" "vec_idx" s) = Raise (KeyError "content")
  /\ result (search "hello" 5 "kb" "docs" "vec_idx" None s) = Ok [].
Proof.
  cbv zeta.
  destruct (search_swallows_pipeline_errors (Sv := Mem.services)
              "hello" 5 "kb" "docs" "vec_idx" None (Mem.kb 0 [[("_id", VInt 1)]]))
    as (Hswallow & Hmapping & _).
  pose proof (Hmapping _ _ _ _ (KeyError "content") (Mem.kb 0 [[("_id", VInt 1)]])
                eq_refl eq_refl eq_refl) as Hraise.
  split; [exact Hraise|].
  exact (proj1 (Hswallow _ _ _ _ _ _ eq_refl eq_refl Hraise)).
Defined.

(** The amended C8 on two stored records. *)
Lemma search_results_follow_records_witness :
  exists docs,
    result (search "hello" 5 "kb" "docs" "vec_idx" None
                   (Mem.kb 0 [Mem.record 1 "a" Mem.f075; Mem.record 2 "b" Mem.f025])) = Ok docs
    /\ map doc_id docs = ["1"; "2"].
Proof.
  destruct (search_results_follow_records (Sv := Mem.services)
              "hello" 5 "kb" "docs" "vec_idx" None
              (Mem.kb 0 [Mem.record 1 "a" Mem.f075; Mem.record 2 "b" Mem.f025])
              _ _ _ _ _ _ _ _ _ eq_refl eq_refl eq_refl eq_refl) as (docs & Hres & _).
  - repeat constructor; discriminate.
  - exists docs. split; [exact Hres|].
    cbn in Hres. injection Hres as <-. reflexivity.
Defined.

(** C8 as stated fails: the same two records, returned once in descending
    and once in ascending order of score, give the same result list: the
    results carry no score and [search] does not put them in score order. *)
Lemma search_results_ignore_score :
  let ranked := Mem.kb 0 [Mem.record 1 "a" Mem.f075; Mem.record 2 "b" Mem.f025] in
  let unranked := Mem.kb 0 [Mem.record 1 "a" Mem.f025; Mem.record 2 "b" Mem.f075] in
  result (search "hello" 5 "kb" "docs" "vec_idx" None ranked) =
  result (search "hello" 5 "kb" "docs" "vec_idx" None unranked)
  /\ result (search "hello" 5 "kb" "docs" "vec_idx" None unranked) =
     Ok [ {| doc_id := "1"; doc_name := VStr "n"; doc_content := VStr "a";
             doc_meta_data := VDict [] |};
          {| doc_id := "2"; doc_name := VStr "n"; doc_content := VStr "b";
             doc_meta_data := VDict [] |} ]
  /\ map (doc_get "score") (Mem.records ranked) = [Some (VFloat Mem.f075); Some (VFloat Mem.f025)]
  /\ map (doc_get "score") (Mem.records unranked) = [Some (VFloat Mem.f025); Some (VFloat Mem.f075)].
Proof.
  cbv zeta. repeat split; reflexivity.
Qed.

(** C6 at [limit = 11]: on a database with the index, [search] runs a
    pipeline whose [$vectorSearch] stage asks for 10 candidates and 10
    results, fewer candidates than the limit of 11 it was called with. *)
Theorem search_candidate_pool_below_limit :
  let limit := 11 in
  let r := search "hello" limit "kb" "docs" "vec_idx" None (Mem.kb 0 []) in
  exists pipeline,
    In (EvAggregate pipeline) (events r)
    /\ stage_field "$vectorSearch" "numCandidates" pipeline = Some (VInt 10)
    /\ stage_field "$vectorSearch" "limit" pipeline = Some (VInt 10)
    /\ 10 < limit.
Proof.
  cbv zeta. eexists. split; [|split; [|split]].
  - cbn. right. right. right. left. reflexivity.
  - reflexivity.
  - reflexivity.
  - lia.
Qed.

(** The demo's own budget, [max_attempts = 10], on a database where the index
    never shows: the loop gives up after eleven checks. *)
Example demo_times_out :
  let r := wait_for_index 11 max_attempts 0 "test_database" "test_collection"
                          "vector_search_index" Mem.empty in
  result r = Ok (Some TimedOut)
  /\ List.length (filter is_check (events r)) = 11%nat
  /\ List.length (filter is_sleep (events r)) = 10%nat.
Proof.
  cbv zeta. repeat split; reflexivity.
Qed.

(** * Further properties of the wrapper *)

(** ** [index_exists]: a read-only check *)

Section IndexExistsMore.
Context {Sv : Services}.
Variables database_name collection_name index_name : string.


(** X2: the scan of the listing stops at the first entry without a
    ["name"]: when every entry before it has another name, [index_exists]
    answers [False] and logs the [KeyError], whatever comes after - a
    matching index included. *)
Theorem index_exists_nameless_entry
        (s s1 : Env) (before after : list document) (entry : document) :
  list_search_indexes database_name collection_name s =
  (Ok (before ++ entry :: after)%list, s1) ->
  Forall named before ->
  existsb (has_name index_name) before = false ->
  doc_get "name" entry = None ->
  index_exists database_name collection_name index_name s =
  Run (Ok false) s1
      [EvListSearchIndexes database_name collection_name;
       EvLog ERROR ("Error checking search index existence for '" ++ index_name
                    ++ "': 'name'")].
Proof.
  intros Hlist Hnamed Hnone Hentry.
  rewrite index_exists_run, Hlist. cbv zeta.
  assert (Hscan : any_name_eq index_name (before ++ entry :: after) =
                  Raise (KeyError "name")).
  { clear Hlist. induction Hnamed as [|index rest Hn _ IH]; cbn in *.
    - now rewrite Hentry.
    - unfold has_name in Hnone. unfold named in Hn.
      destruct (doc_get "name" index) as [v|]; [|congruence].
      apply orb_false_iff in Hnone as [Hv Hrest]. rewrite Hv. auto. }
  rewrite Hscan. reflexivity.
Qed.

(** X3: the scan stops at the first match: when an entry has the name and
    all entries before it carry some other name, [index_exists] answers
    [True] without a log line, whatever comes after - entries without a
    ["name"] included. *)
Theorem index_exists_first_match
        (s s1 : Env) (before after : list document) (entry : document) :
  list_search_indexes database_name collection_name s =
  (Ok (before ++ entry :: after)%list, s1) ->
  Forall named before ->
  has_name index_name entry = true ->
  index_exists database_name collection_name index_name s =
  Run (Ok true) s1 [EvListSearchIndexes database_name collection_name].
Proof.
  intros Hlist Hnamed Hentry.
  rewrite index_exists_run, Hlist. cbv zeta.
  assert (Hscan : any_name_eq index_name (before ++ entry :: after) = Ok true).
  { clear Hlist. induction Hnamed as [|index rest Hn _ IH]; cbn.
    - unfold has_name in Hentry.
      destruct (doc_get "name" entry) as [v|]; [|discriminate]. now rewrite Hentry.
    - unfold named in Hn.
      destruct (doc_get "name" index) as [v|]; [|congruence].
      destruct (value_eq_str v index_name); auto. }
  rewrite Hscan. reflexivity.
Qed.

(** X4: a failing listing is answered with [False] and exactly one error
    line, which tells a database [OperationFailure] from any other
    exception; the environment is the one the failed listing left. *)
Theorem index_exists_listing_failure (s s1 : Env) (e : exn) :
  list_search_indexes database_name collection_name s = (Raise e, s1) ->
  index_exists database_name collection_name index_name s =
  Run (Ok false) s1
      [EvListSearchIndexes database_name collection_name;
       EvLog ERROR
             (match e with
              | OperationFailure msg =>
                  "Operation failure while checking index existence: " ++ msg
              | _ =>
                  "Error checking search index existence for '" ++ index_name
                  ++ "': " ++ exn_str e
              end)].
Proof.
  intros Hlist. rewrite index_exists_run, Hlist. cbv zeta.
  destruct e; reflexivity.
Qed.
End IndexExistsMore.

(** X2 on a listing that holds a nameless entry before the index asked for. *)
Lemma index_exists_nameless_entry_witness :
  result (index_exists "kb" "docs" "vec_idx"
                       (Fixtures.listing [Fixtures.nameless; Fixtures.vec_idx])) = Ok false.
Proof.
  rewrite (index_exists_nameless_entry (Sv := Mem.services) "kb" "docs" "vec_idx"
             (Fixtures.listing [Fixtures.nameless; Fixtures.vec_idx])
             (Fixtures.listing [Fixtures.nameless; Fixtures.vec_idx])
             [] [Fixtures.vec_idx] Fixtures.nameless
             eq_refl (Forall_nil _) eq_refl eq_refl).
  reflexivity.
Defined.

(** X3 on a listing that holds the index asked for before a nameless entry. *)
Lemma index_exists_first_match_witness :
  result (index_exists "kb" "docs" "vec_idx"
                       (Fixtures.listing [Fixtures.vec_idx; Fixtures.nameless])) = Ok true.
Proof.
  rewrite (index_exists_first_match (Sv := Mem.services) "kb" "docs" "vec_idx"
             (Fixtures.listing [Fixtures.vec_idx; Fixtures.nameless])
             (Fixtures.listing [Fixtures.vec_idx; Fixtures.nameless])
             [] [Fixtures.nameless] Fixtures.vec_idx
             eq_refl (Forall_nil _) eq_refl).
  reflexivity.
Defined.

(** X4 on a database whose listing fails. *)
Lemma index_exists_listing_failure_witness :
  events (index_exists "kb" "docs" "vec_idx" (Mem.listing_down (Mem.kb 0 []))) =
  [EvListSearchIndexes "kb" "docs";
   EvLog ERROR "Operation failure while checking index existence: listSearchIndexes failed"].
Proof.
  rewrite (index_exists_listing_failure (Sv := Mem.services) "kb" "docs" "vec_idx"
             (Mem.listing_down (Mem.kb 0 [])) (Mem.listing_down (Mem.kb 0 []))
             (OperationFailure "listSearchIndexes failed") eq_refl).
  reflexivity.
Defined.

(** ** [create_if_not_exists]: failures and composition *)

Lemma append_same_head (p a b : string) : (p ++ a = p ++ b)%string -> a = b.
Proof.
  induction p as [|c p IH]; cbn; intros H; [exact H|].
  injection H as H. auto.
Qed.

Section CollectionMore.
Context {Sv : Services}.
Variables database_name collection_name : string.

Abbreviation ensure s := (create_if_not_exists database_name collection_name s).
Abbreviation insert_ev := (EvInsertOne database_name collection_name placeholder_doc).
Abbreviation delete_ev := (EvDeleteOne database_name collection_name placeholder_filter).

(** X5: [create_if_not_exists] handles no failure: a failing listing raises
    before any write; a failing insert raises with the insert as only write
    (no delete is attempted); a failing delete raises after both writes, the
    placeholder possibly left behind, and the success line is not logged. *)
Theorem create_if_not_exists_failures (s : Env) :
  (forall e s1,
      list_collection_names database_name s = (Raise e, s1) ->
      ensure s = Run (Raise e) s1 [EvListCollectionNames database_name])
  /\ (forall names s1 e s2,
         list_collection_names database_name s = (Ok names, s1) ->
         str_in collection_name names = false ->
         insert_one database_name collection_name placeholder_doc s1 = (Raise e, s2) ->
         result (ensure s) = Raise e
         /\ env_after (ensure s) = s2
         /\ writes (events (ensure s)) = [insert_ev])
  /\ (forall names s1 s2 e s3,
         list_collection_names database_name s = (Ok names, s1) ->
         str_in collection_name names = false ->
         insert_one database_name collection_name placeholder_doc s1 = (Ok tt, s2) ->
         delete_one database_name collection_name placeholder_filter s2 = (Raise e, s3) ->
         result (ensure s) = Raise e
         /\ env_after (ensure s) = s3
         /\ writes (events (ensure s)) = [insert_ev; delete_ev]
         /\ ~ In (EvLog INFO ("Collection '" ++ collection_name
                              ++ "' created successfully."))
                 (events (ensure s))).
Proof.
  unfold create_if_not_exists, bind, call, log, ret.
  split; [|split].
  - intros e s1 ->. reflexivity.
  - intros names s1 e s2 -> Hin. cbn. rewrite Hin. cbn. intros ->. cbn. auto.
  - intros names s1 s2 e s3 -> Hin. cbn. rewrite Hin. cbn. intros ->. cbn.
    intros ->. cbn. repeat split.
    intros [H|[H|[H|[H|[]]]]]; try discriminate.
    injection H as H. apply append_same_head in H. discriminate.
Qed.

(** X6: whatever the database answers, the only writes of
    [create_if_not_exists] are the insert of the placeholder and then its
    delete, on the named collection: it never deletes without having
    inserted, and a returned handle is the one asked for. *)
Theorem create_if_not_exists_only_placeholder (s : Env) :
  (writes (events (ensure s)) = []
   \/ writes (events (ensure s)) = [insert_ev]
   \/ writes (events (ensure s)) = [insert_ev; delete_ev])
  /\ (forall handle, result (ensure s) = Ok handle ->
                     handle = (database_name, collection_name))
  /\ (writes (events (ensure s)) = [insert_ev] -> exists e, result (ensure s) = Raise e).
Proof.
  unfold create_if_not_exists, bind, call, ret, log.
  destruct (list_collection_names database_name s) as [[names|e] s1]; cbn.
  2: { repeat split; auto; discriminate. }
  destruct (str_in collection_name names); cbn.
  { repeat split; auto; try discriminate. intros h H. now injection H. }
  destruct (insert_one _ _ _ s1) as [[[]|e] s2]; cbn.
  2: { repeat split; eauto; discriminate. }
  destruct (delete_one _ _ _ s2) as [[[]|e] s3]; cbn.
  - repeat split; auto; try discriminate. intros h H. now injection H.
  - repeat split; auto; discriminate.
Qed.

(** X7: calling [create_if_not_exists] again after it created the
    collection does nothing but list the collections: no second placeholder
    is written (the database materialising collections on insert and keeping
    them on delete). *)
Theorem create_if_not_exists_twice (s s1 s2 s3 : Env) (names : list string) :
  insert_materialises -> delete_keeps_collections ->
  list_collection_names database_name s = (Ok names, s1) ->
  str_in collection_name names = false ->
  insert_one database_name collection_name placeholder_doc s1 = (Ok tt, s2) ->
  delete_one database_name collection_name placeholder_filter s2 = (Ok tt, s3) ->
  result (ensure (env_after (ensure s))) = Ok (database_name, collection_name)
  /\ events (ensure (env_after (ensure s))) = [EvListCollectionNames database_name]
  /\ writes (events (ensure s) ++ events (ensure (env_after (ensure s)))) =
     [insert_ev; delete_ev].
Proof.
  intros Hmat Hkeep Hl Hin Hi Hd.
  rewrite (create_if_not_exists_absent _ _ _ _ _ _ _ Hl Hin Hi Hd).
  cbn [env_after events].
  destruct (Hkeep _ _ _ _ _ Hd collection_name (Hmat _ _ _ _ _ Hi))
    as (names' & s4 & Hl' & Hin').
  rewrite (create_if_not_exists_present _ _ _ _ _ Hl' Hin'). cbn. auto.
Qed.

(** X8: [create_if_not_exists] decides by the listing that
    [get_collection_names] of [base-wrapper.py] returns: it writes exactly
    when the name is not among the names returned. *)
Theorem create_if_not_exists_writes_iff_unlisted (s : Env) (names : list string) :
  result (get_collection_names database_name s) = Ok names ->
  (writes (events (ensure s)) = [] <-> str_in collection_name names = true).
Proof.
  unfold get_collection_names, create_if_not_exists, bind, call, ret, log.
  destruct (list_collection_names database_name s) as [[names'|e] s1]; cbn;
    [|discriminate].
  intros H. injection H as ->.
  destruct (str_in collection_name names); cbn; [tauto|].
  destruct (insert_one _ _ _ s1) as [[[]|e] s2]; cbn.
  - destruct (delete_one _ _ _ s2) as [[[]|e] s3]; cbn; split; discriminate.
  - split; discriminate.
Qed.
End CollectionMore.

(** X5 on services whose delete fails: the insert was made, the call raises. *)
Lemma create_if_not_exists_failures_witness :
  let s := Flaky.with_faults Mem.empty Flaky.failing_delete in
  result (create_if_not_exists "kb" "docs" s) = Raise (OperationFailure "delete failed")
  /\ writes (events (create_if_not_exists "kb" "docs" s)) =
     [EvInsertOne "kb" "docs" placeholder_doc; EvDeleteOne "kb" "docs" placeholder_filter].
Proof.
  cbv zeta.
  destruct (create_if_not_exists_failures (Sv := Flaky.services) "kb" "docs"
              (Flaky.with_faults Mem.empty Flaky.failing_delete)) as (_ & _ & H).
  destruct (H [] (Flaky.with_faults Mem.empty Flaky.failing_delete) _ _ _
              eq_refl eq_refl eq_refl eq_refl) as (Hr & _ & Hw & _).
  split; assumption.
Defined.

(** X7 on an empty in-memory database. *)
Lemma create_if_not_exists_twice_witness :
  let r := create_if_not_exists "kb" "docs" Mem.empty in
  events (create_if_not_exists "kb" "docs" (env_after r)) = [EvListCollectionNames "kb"].
Proof.
  cbv zeta.
  exact (proj1 (proj2 (create_if_not_exists_twice (Sv := Mem.services) "kb" "docs"
                         Mem.empty Mem.empty _ _ []
                         mem_insert_materialises mem_delete_keeps_collections
                         eq_refl eq_refl eq_refl eq_refl))).
Defined.

(** X8 on a database that lists the collection. *)
Lemma create_if_not_exists_writes_iff_unlisted_witness :
  writes (events (create_if_not_exists "kb" "docs" (Mem.kb 0 []))) = [].
Proof.
  apply (create_if_not_exists_writes_iff_unlisted (Sv := Mem.services) "kb" "docs"
           (Mem.kb 0 []) ["docs"] eq_refl).
  reflexivity.
Defined.

(** ** [_create_search_index]: probing, creation and failures *)

Section SearchIndexMore.
Context {Sv : Services}.
Variables database_name collection_name index_name : string.
Variable get_embedding : string -> Env -> outcome embedding * Env.
Variable distance_metric : string.

Abbreviation provision s :=
  (_create_search_index database_name collection_name index_name
                        get_embedding distance_metric s).
Abbreviation failed e := (EvLog ERROR (creation_failure_line index_name e)).

(** The run of [_create_search_index], by the answers of its steps. *)
Lemma create_search_index_run (s : Env) :
  provision s =
  match create_if_not_exists database_name collection_name s with
  | Run (Raise e) s1 t1 => Run (Raise e) s1 (t1 ++ [failed e])
  | Run (Ok _) s1 t1 =>
      match index_exists database_name collection_name index_name s1 with
      | Run (Raise e) s2 t2 => Run (Raise e) s2 ((t1 ++ t2) ++ [failed e])
      | Run (Ok true) s2 t2 =>
          Run (Ok tt) s2
              (t1 ++ t2 ++ [EvLog INFO ("Search index '" ++ index_name
                                        ++ "' already exists in collection '"
                                        ++ collection_name ++ "'.")])
      | Run (Ok false) s2 t2 =>
          let creating :=
            EvLog INFO ("Creating search index '" ++ index_name ++ "' for collection '"
                        ++ collection_name ++ "'.") in
          match get_embedding "0" s2 with
          | (Raise e, s3) =>
              Run (Raise e) s3
                  ((t1 ++ t2 ++ [creating; EvProbeEmbedding "0"]) ++ [failed e])
          | (Ok probe, s3) =>
              match py_len probe with
              | Raise e =>
                  Run (Raise e) s3
                      ((t1 ++ t2 ++ [creating; EvProbeEmbedding "0"]) ++ [failed e])
              | Ok num_dimensions =>
                  let model :=
                    search_index_model index_name num_dimensions distance_metric in
                  let create :=
                    EvCreateSearchIndex database_name collection_name model in
                  match create_search_index database_name collection_name model s3 with
                  | (Raise e, s4) =>
                      Run (Raise e) s4
                          ((t1 ++ t2 ++ [creating; EvProbeEmbedding "0"; create])
                             ++ [failed e])
                  | (Ok _, s4) =>
                      Run (Ok tt) s4
                          (t1 ++ t2
                              ++ [creating; EvProbeEmbedding "0"; create;
                                  EvLog INFO ("Search index '" ++ index_name
                                              ++ "' created successfully for collection '"
                                              ++ collection_name ++ "'.")])
                  end
              end
          end
      end
  end%list.
Proof.
  unfold _create_search_index, creation_failure_line, try_catch.
  unfold bind at 1.
  destruct (create_if_not_exists database_name collection_name s) as [[h|e] s1 t1].
  2: { unfold log, raise, bind. destruct (is_operation_failure e); reflexivity. }
  unfold bind at 1.
  destruct (index_exists database_name collection_name index_name s1)
    as [[[|]|e] s2 t2].
  - reflexivity.
  - unfold bind, call, lift, log, ret, raise. cbv zeta.
    destruct (get_embedding "0" s2) as [[probe|e] s3].
    2: { cbn. destruct (is_operation_failure e); reflexivity. }
    destruct (py_len probe) as [dims|e].
    2: { cbn. destruct (is_operation_failure e); reflexivity. }
    cbn.
    destruct (create_search_index _ _ _ s3) as [[[]|e] s4].
    + reflexivity.
    + cbn. destruct (is_operation_failure e); reflexivity.
  - unfold log, raise, bind. destruct (is_operation_failure e); reflexivity.
Qed.

(** X9: [_create_search_index] fails loudly: whenever it raises, the
    exception is the one its failing step raised, and the last thing it did
    was log it, as "Operation failed" for a database [OperationFailure]
    and as "Failed to create search index" otherwise. *)
Theorem create_search_index_raises_logged (s : Env) (e : exn) :
  result (provision s) = Raise e ->
  exists before,
    events (provision s) =
    (before ++ [EvLog ERROR
                      (match e with
                       | OperationFailure msg => "Operation failed: " ++ msg
                       | _ => "Failed to create search index '" ++ index_name
                              ++ "': " ++ exn_str e
                       end)])%list.
Proof.
  assert (Hline : forall e', creation_failure_line index_name e' =
                             match e' with
                             | OperationFailure msg => "Operation failed: " ++ msg
                             | _ => "Failed to create search index '" ++ index_name
                                    ++ "': " ++ exn_str e'
                             end) by (intros []; reflexivity).
  rewrite create_search_index_run.
  destruct (create_if_not_exists database_name collection_name s) as [[h|e1] s1 t1].
  2: { cbn. intros H. injection H as ->. rewrite <- Hline. eauto. }
  destruct (index_exists database_name collection_name index_name s1)
    as [[[|]|e2] s2 t2]; [discriminate| |].
  2: { cbn. intros H. injection H as ->. rewrite <- Hline. eauto. }
  cbv zeta.
  destruct (get_embedding "0" s2) as [[probe|e3] s3].
  2: { cbn. intros H. injection H as ->. rewrite <- Hline. eauto. }
  destruct (py_len probe) as [dims|e4].
  2: { cbn. intros H. injection H as ->. rewrite <- Hline. eauto. }
  destruct (create_search_index _ _ _ s3) as [[[]|e5] s4]; [discriminate|].
  cbn. intros H. injection H as ->. rewrite <- Hline. eauto.
Qed.

(** X10: when the index is absent and the probe fails, or answers [None],
    no index-creation call is made: the call raises the probe's exception,
    or the [TypeError] of [len(None)]. *)
Theorem create_search_index_bad_probe (s s3 : Env) :
  existence_check database_name collection_name index_name s = Some false ->
  (forall e,
      get_embedding "0" (probe_env database_name collection_name index_name s)
      = (Raise e, s3) ->
      result (provision s) = Raise e /\ creations (events (provision s)) = [])
  /\ (get_embedding "0" (probe_env database_name collection_name index_name s)
      = (Ok None, s3) ->
      result (provision s) = Raise (TypeError "object of type 'NoneType' has no len()")
      /\ creations (events (provision s)) = []).
Proof.
  unfold existence_check, probe_env. intros Hcheck.
  rewrite create_search_index_run.
  destruct (create_if_not_exists_no_creation database_name collection_name
              get_embedding s)
    as [Hc _].
  destruct (create_if_not_exists database_name collection_name s) as [[h|e1] s1 t1];
    [|discriminate].
  cbn [env_after].
  destruct (index_exists_shape database_name collection_name index_name s1)
    as (b & lines & Hrun).
  rewrite Hrun in *. cbn in Hcheck, Hc. injection Hcheck as ->.
  cbn [env_after]. cbv zeta. unfold creations in *.
  split.
  - intros e ->. cbn [result events].
    rewrite !filter_app, Hc. cbn. rewrite ?filter_app, ?filter_log_lines by reflexivity.
    auto.
  - intros ->. cbn [py_len result events].
    rewrite !filter_app, Hc. cbn. rewrite ?filter_app, ?filter_log_lines by reflexivity.
    auto.
Qed.

(** X11: when the index is absent and the probe answers a vector, exactly
    one creation is requested, whether it then succeeds or not: a
    [vectorSearch] index of the given name over the field ["embedding"], with
    the given similarity and as many dimensions as the probe vector is long. *)
Theorem create_search_index_model (s s3 : Env) (probe : list spec_float) :
  existence_check database_name collection_name index_name s = Some false ->
  get_embedding "0" (probe_env database_name collection_name index_name s)
  = (Ok (Some probe), s3) ->
  creations (events (provision s)) =
  [EvCreateSearchIndex database_name collection_name
     {| sim_definition :=
          [("fields",
            VList [VDict [("type", VStr "vector");
                          ("numDimensions", VInt (Z.of_nat (List.length probe)));
                          ("path", VStr "embedding");
                          ("similarity", VStr distance_metric)]])];
        sim_name := index_name;
        sim_type := "vectorSearch" |}].
Proof.
  unfold existence_check, probe_env. intros Hcheck.
  rewrite create_search_index_run.
  destruct (create_if_not_exists_no_creation database_name collection_name
              get_embedding s)
    as [Hc _].
  destruct (create_if_not_exists database_name collection_name s) as [[h|e1] s1 t1];
    [|discriminate].
  cbn [env_after].
  destruct (index_exists_shape database_name collection_name index_name s1)
    as (b & lines & Hrun).
  rewrite Hrun in *. cbn in Hcheck, Hc. injection Hcheck as ->.
  cbn [env_after]. cbv zeta. unfold creations in *.
  intros ->. cbn [py_len].
  destruct (create_search_index _ _ _ s3) as [[[]|e] s4]; cbn [events];
    rewrite !filter_app, Hc; cbn; rewrite ?filter_app, ?filter_log_lines by reflexivity;
    reflexivity.
Qed.

(** X12: whatever the services answer, one call of [_create_search_index]
    lists the search indexes at most once, probes at most once, requests at
    most one creation, and never sleeps; and it requests a creation only
    after a probe. *)
Theorem create_search_index_at_most_once (s : Env) :
  (List.length (filter is_check (events (provision s))) <= 1)%nat
  /\ (List.length (filter is_probe (events (provision s))) <= 1)%nat
  /\ (List.length (creations (events (provision s)))
      <= List.length (filter is_probe (events (provision s))))%nat
  /\ filter is_sleep (events (provision s)) = [].
Proof.
  pose proof (create_if_not_exists_quiet database_name collection_name s) as Hq.
  assert (Hk : filter is_check
                 (events (create_if_not_exists database_name collection_name s)) = [])
    by (apply filter_none; eapply Forall_impl; try exact Hq; cbn; tauto).
  assert (Hp : filter is_probe
                 (events (create_if_not_exists database_name collection_name s)) = [])
    by (apply filter_none; eapply Forall_impl; try exact Hq; cbn; tauto).
  assert (Hc : filter is_creation
                 (events (create_if_not_exists database_name collection_name s)) = [])
    by (apply filter_none; eapply Forall_impl; try exact Hq; cbn; tauto).
  assert (Hs : filter is_sleep
                 (events (create_if_not_exists database_name collection_name s)) = []).
  { unfold create_if_not_exists, bind, call, ret, log.
    destruct (list_collection_names database_name s) as [[names|e] s1]; cbn;
      [|reflexivity].
    destruct (str_in collection_name names); cbn; [reflexivity|].
    destruct (insert_one _ _ _ s1) as [[[]|e] s2]; cbn; [|reflexivity].
    destruct (delete_one _ _ _ s2) as [[[]|e] s3]; reflexivity. }
  rewrite create_search_index_run. unfold creations.
  destruct (create_if_not_exists database_name collection_name s) as [[h|e1] s1 t1];
    cbn [events] in *.
  2: { rewrite !filter_app, Hk, Hp, Hc, Hs. cbn. auto. }
  destruct (index_exists_shape database_name collection_name index_name s1)
    as (b & lines & ->).
  destruct b; cbv beta iota zeta; cbn [events].
  { rewrite !filter_app, Hk, Hp, Hc, Hs. cbn.
    rewrite ?filter_app, ?filter_log_lines by reflexivity. cbn. auto. }
  destruct (get_embedding "0" _) as [[probe|e3] s3]; cbn [events].
  2: { rewrite !filter_app, Hk, Hp, Hc, Hs. cbn.
       rewrite ?filter_app, ?filter_log_lines by reflexivity. cbn. auto. }
  destruct (py_len probe) as [dims|e4]; cbn [events].
  2: { rewrite !filter_app, Hk, Hp, Hc, Hs. cbn.
       rewrite ?filter_app, ?filter_log_lines by reflexivity. cbn. auto. }
  destruct (create_search_index _ _ _ s3) as [[[]|e5] s4]; cbn [events];
    rewrite !filter_app, Hk, Hp, Hc, Hs; cbn;
    rewrite ?filter_app, ?filter_log_lines by reflexivity; cbn; auto.
Qed.
End SearchIndexMore.

(** X9 on services whose index creation fails. *)
Lemma create_search_index_raises_logged_witness :
  let s := Flaky.with_faults Mem.empty Flaky.failing_creation in
  let r := _create_search_index (Sv := Flaky.services) "kb" "docs" "vec_idx"
                                (fun text => Flaky.embeddings_create [text] "m" 4)
                                "cosine" s in
  result r = Raise (OperationFailure "createSearchIndexes failed")
  /\ exists before,
      events r = (before ++ [EvLog ERROR "Operation failed: createSearchIndexes failed"])%list.
Proof.
  cbv zeta. split; [reflexivity|].
  exact (create_search_index_raises_logged (Sv := Flaky.services)
           "kb" "docs" "vec_idx" (fun text => Flaky.embeddings_create [text] "m" 4)
           "cosine" (Flaky.with_faults Mem.empty Flaky.failing_creation)
           (OperationFailure "createSearchIndexes failed") eq_refl).
Defined.

(** X10 with a probe that answers [None]. *)
Lemma create_search_index_bad_probe_witness :
  let r := _create_search_index "kb" "docs" "vec_idx" (fun _ s => (Ok None, s))
                                "cosine" Mem.empty in
  result r = Raise (TypeError "object of type 'NoneType' has no len()")
  /\ creations (events r) = [].
Proof.
  cbv zeta.
  destruct (create_search_index_bad_probe (Sv := Mem.services)
              "kb" "docs" "vec_idx" (fun _ s => (Ok None, s)) "cosine"
              Mem.empty (probe_env "kb" "docs" "vec_idx" Mem.empty) eq_refl) as [_ H].
  exact (H eq_refl).
Defined.

(** X11 with the provider as probe: 256 dimensions. *)
Lemma create_search_index_model_witness :
  creations (events (_create_search_index "kb" "docs" "vec_idx" Mem.probe
                                          "cosine" Mem.empty)) =
  [EvCreateSearchIndex "kb" "docs" (search_index_model "vec_idx" 256 "cosine")].
Proof.
  exact (create_search_index_model (Sv := Mem.services)
           "kb" "docs" "vec_idx" Mem.probe "cosine" Mem.empty
           (probe_env "kb" "docs" "vec_idx" Mem.empty)
           (repeat (S754_zero false) 256) eq_refl eq_refl).
Defined.

(** ** The polling loop in any environment *)

Section PollingMore.
Context {Sv : Services}.
Variables database_name collection_name index_name : string.

Abbreviation poll fuel max a s :=
  (wait_for_index fuel max a database_name collection_name index_name s).

(** Either some check among the first [m] reports the index, or all [m]
    report it absent. *)
Lemma visible_or_hidden (m : nat) :
  forall s : Env,
    (exists j, (j < m)%nat
               /\ visible_after j database_name collection_name index_name s = true)
    \/ hidden_for m database_name collection_name index_name s = true.
Proof.
  induction m as [|m IH]; intros s; [now right|].
  cbn [hidden_for].
  destruct (check database_name collection_name index_name s) eqn:Hc.
  - left. exists 0%nat. split; [lia|exact Hc].
  - destruct (IH (next_check database_name collection_name index_name s))
      as [(j & Hj & Hv)|Hh].
    + left. exists (S j). split; [lia|]. cbn [visible_after]. now rewrite Hc.
    + right. now rewrite Hh.
Qed.

(** X13: in any environment the loop, given fuel for [max + 1] checks,
    ends [Ready] exactly when one of the first [max + 1] checks reports the
    index - a first report on check [max + 1] itself still counts - and
    [TimedOut] otherwise; it never runs out of fuel. *)
Theorem wait_for_index_ready_iff (max : Z) (fuel : nat) (s : Env) :
  0 <= max ->
  (Z.to_nat max < fuel)%nat ->
  (result (poll fuel max 0 s) = Ok (Some Ready)
   <-> exists j, (j <= Z.to_nat max)%nat
                 /\ visible_after j database_name collection_name index_name s = true)
  /\ (result (poll fuel max 0 s) = Ok (Some Ready)
      \/ result (poll fuel max 0 s) = Ok (Some TimedOut)).
Proof.
  intros Hmax Hfuel.
  assert (Hready : forall j,
             (j <= Z.to_nat max)%nat ->
             visible_after j database_name collection_name index_name s = true ->
             result (poll fuel max 0 s) = Ok (Some Ready)).
  { intros j Hj Hv.
    apply (wait_for_index_ready database_name collection_name index_name j
             fuel max 0 s); trivial; lia. }
  destruct (visible_or_hidden (S (Z.to_nat max)) s) as [(j & Hj & Hv)|Hh].
  - split; [|left; apply (Hready j); trivial; lia].
    split; [|intros (j' & Hj' & Hv'); now apply (Hready j')].
    intros _. exists j. split; [lia|exact Hv].
  - destruct (wait_for_index_timed_out database_name collection_name index_name
                (Z.to_nat max) fuel max 0 s Hfuel ltac:(lia) Hh) as (Hr & _).
    split; [|now right].
    split; [rewrite Hr; discriminate|].
    intros (j & Hj & Hv). rewrite (Hready j Hj Hv) in Hr. discriminate.
Qed.

(** X14: in any environment, and for any [max] (negative ones included),
    the loop given enough fuel makes at least one and at most
    [max(max, 0) + 1] checks, sleeps one second between consecutive checks
    and nowhere else, and neither writes nor creates anything. *)
Theorem wait_for_index_bounded (max : Z) (fuel : nat) (s : Env) :
  (Z.to_nat max < fuel)%nat ->
  exists checks : nat,
    (1 <= checks <= Z.to_nat max + 1)%nat
    /\ schedule (events (poll fuel max 0 s)) =
       checks_with_waits database_name collection_name checks
    /\ writes (events (poll fuel max 0 s)) = []
    /\ creations (events (poll fuel max 0 s)) = [].
Proof.
  assert (H : forall d fuel a s,
             Z.to_nat (max - a) = d -> (d < fuel)%nat ->
             exists checks : nat,
               (1 <= checks <= d + 1)%nat
               /\ schedule (events (poll fuel max a s)) =
                  checks_with_waits database_name collection_name checks
               /\ writes (events (poll fuel max a s)) = []
               /\ creations (events (poll fuel max a s)) = []).
  { clear fuel s. induction d as [|d IH]; intros [|fuel] a s Hd Hfuel; try lia;
      rewrite wait_for_index_step;
      destruct (index_exists_shape database_name collection_name index_name s)
        as (b & lines & ->); (destruct b; [exists 1%nat|]).
    1, 3: unfold schedule, writes, creations; cbn;
      rewrite ?filter_app, ?filter_log_lines by reflexivity; cbn;
      repeat split; lia.
    - replace (a + 1 >? max) with true
        by (symmetry; rewrite Z.gtb_ltb; apply Z.ltb_lt; lia).
      exists 1%nat. unfold schedule, writes, creations. cbn.
      rewrite ?filter_app, ?filter_log_lines by reflexivity. cbn.
      repeat split; lia.
    - replace (a + 1 >? max) with false
        by (symmetry; rewrite Z.gtb_ltb; apply Z.ltb_ge; lia).
      assert (Hd' : Z.to_nat (max - (a + 1)) = d) by lia.
      assert (Hfuel' : (d < fuel)%nat) by lia.
      destruct (IH fuel (a + 1)
                   (sleep 1 (snd (list_search_indexes database_name collection_name s)))
                   Hd' Hfuel') as (k & Hk & Hsched & Hw & Hc).
      destruct (poll fuel max (a + 1) _) as [r s2 t2]. cbn [events] in *.
      exists (S k). unfold schedule, writes, creations in *. cbn.
      rewrite ?filter_app, ?filter_log_lines by reflexivity. cbn.
      rewrite Hsched, Hw, Hc.
      destruct k as [|k]; [lia|]. repeat split; lia. }
  intros Hfuel. apply (H (Z.to_nat max) fuel 0 s); trivial. f_equal. lia.
Qed.
End PollingMore.

(** X13 with three attempts and an index that shows on the fourth check. *)
Lemma wait_for_index_ready_iff_witness :
  result (wait_for_index 4 3 0 "kb" "docs" "vec_idx" (Mem.kb 3 [])) = Ok (Some Ready).
Proof.
  destruct (wait_for_index_ready_iff (Sv := Mem.services) "kb" "docs" "vec_idx"
              3 4 (Mem.kb 3 []) ltac:(lia) ltac:(cbn; lia)) as [[_ H] _].
  apply H. exists 3%nat. split; [cbn; lia|reflexivity].
Defined.

(** X14 with a negative budget: one check, no sleep. *)
Lemma wait_for_index_bounded_witness :
  exists checks : nat,
    (1 <= checks <= 1)%nat
    /\ schedule (events (wait_for_index 1 (-5) 0 "kb" "docs" "vec_idx" Mem.empty)) =
       checks_with_waits "kb" "docs" checks.
Proof.
  destruct (wait_for_index_bounded (Sv := Mem.services) "kb" "docs" "vec_idx"
              (-5) 1 Mem.empty ltac:(cbn; lia)) as (k & Hk & Hs & _).
  exists k. split; [exact Hk|exact Hs].
Defined.

(** ** [search]: edge cases and what it never does *)

Section RecordMore.
Context {Sv : Services}.

(** A record without ["_id"] or without ["content"] has no [Document]. *)
Lemma to_document_bad_record (raw : document) :
  doc_get "_id" raw = None \/ doc_get "content" raw = None ->
  exists key, (key = "_id" \/ key = "content") /\ to_document raw = Raise (KeyError key).
Proof.
  unfold to_document, doc_item. intros [H|H].
  - rewrite H. eauto.
  - destruct (doc_get "_id" raw); rewrite ?H; eauto.
Qed.

(** One such record anywhere makes the mapping loop raise. *)
Lemma map_records_bad_record (agg : list document) (raw : document) :
  In raw agg ->
  doc_get "_id" raw = None \/ doc_get "content" raw = None ->
  forall acc, exists key,
      (key = "_id" \/ key = "content") /\ map_records agg acc = Raise (KeyError key).
Proof.
  intros Hin Hbad. induction agg as [|doc rest IH]; [destruct Hin|].
  intros acc. cbn.
  destruct (to_document doc) as [d|e] eqn:Hdoc.
  - destruct Hin as [->|Hin].
    + destruct (to_document_bad_record raw Hbad) as (key & _ & H). congruence.
    + apply (IH Hin).
  - unfold to_document, doc_item in Hdoc.
    destruct (doc_get "_id" doc); [|injection Hdoc as <-; eauto].
    destruct (doc_get "content" doc); [discriminate|injection Hdoc as <-; eauto].
Qed.
End RecordMore.

Section SearchMore.
Context {Sv : Services}.
Variable query : string.
Variables database_name collection_name index_name : string.

Abbreviation request := [str_replace LF SP query].
Abbreviation provider_ev :=
  (EvEmbeddingsCreate request default_model default_dimensions).

(** X15: when the provider answers [None] for the query and the index
    exists, [search] returns the empty list after logging that no embedding
    could be generated; no query vector is asked for and no aggregation is
    run. *)
Theorem search_none_embedding
        (limit : Z) (filters : option document) (s s1 s2 : Env) (t2 : list event) :
  embeddings_create request default_model default_dimensions s = (Ok None, s1) ->
  index_exists database_name collection_name index_name s1 = Run (Ok true) s2 t2 ->
  search query limit database_name collection_name index_name filters s =
  Run (Ok []) s2
      (provider_ev :: t2
         ++ [EvLog ERROR ("Failed to generate embedding for query: " ++ query)])%list.
Proof.
  intros Hemb Hidx.
  rewrite search_run, get_embedding_run. cbv zeta. rewrite Hemb, Hidx. reflexivity.
Qed.

(** X16: whatever the services answer, [search] begins with exactly one
    provider call, lists the search indexes at most once and aggregates at
    most once, and it never writes, creates an index, probes or sleeps. *)
Theorem search_read_only (limit : Z) (filters : option document) (s : Env) :
  let evs := events (search query limit database_name collection_name index_name
                            filters s) in
  (exists rest, evs = provider_ev :: rest /\ filter is_provider_call rest = [])
  /\ (List.length (filter is_check evs) <= 1)%nat
  /\ (List.length (filter is_aggregate evs) <= 1)%nat
  /\ writes evs = []
  /\ creations evs = []
  /\ filter is_probe evs = []
  /\ filter is_sleep evs = [].
Proof.
  cbv zeta. rewrite search_run, get_embedding_run. cbv zeta.
  unfold writes, creations.
  destruct (embeddings_create request default_model default_dimensions s)
    as [[emb|e] s1].
  2: { cbn. repeat split; eauto. }
  destruct (index_exists_shape database_name collection_name index_name s1)
    as (b & lines & ->).
  destruct b.
  2: { cbn. rewrite ?filter_app, ?filter_log_lines by reflexivity. cbn.
       repeat split; eauto.
       eexists. split; [reflexivity|]. cbn.
       rewrite ?filter_app, ?filter_log_lines by reflexivity. reflexivity. }
  destruct emb as [emb|].
  2: { cbn. rewrite ?filter_app, ?filter_log_lines by reflexivity. cbn.
       repeat split; eauto.
       eexists. split; [reflexivity|]. cbn.
       rewrite ?filter_app, ?filter_log_lines by reflexivity. reflexivity. }
  rewrite search_try_run.
  destruct (embedder_get_embedding query _) as [[qv|e] s3].
  2: { cbn. rewrite ?filter_app, ?filter_log_lines by reflexivity. cbn.
       repeat split; eauto.
       eexists. split; [reflexivity|]. cbn.
       rewrite ?filter_app, ?filter_log_lines by reflexivity. reflexivity. }
  cbv zeta.
  destruct (collection_aggregate _ s3) as [[agg|e] s4].
  2: { cbn. rewrite ?filter_app, ?filter_log_lines by reflexivity. cbn.
       repeat split; eauto.
       eexists. split; [reflexivity|]. cbn.
       rewrite ?filter_app, ?filter_log_lines by reflexivity. reflexivity. }
  destruct (map_records agg []) as [docs|e];
    cbn; rewrite ?filter_app, ?filter_log_lines by reflexivity; cbn;
    (repeat split; eauto);
    (eexists; split; [reflexivity|]); cbn;
    rewrite ?filter_app, ?filter_log_lines by reflexivity; reflexivity.
Qed.

(** X17: [limit] caps nothing: a search that gets through returns as many
    [Document]s as the aggregation returned records, and the whole run is the
    same for every value of [limit]. *)
Theorem search_ignores_limit
        (limit limit' : Z) (filters : option document) (s s1 s2 s3 s4 : Env)
        (t1 t2 : list event) (emb : list spec_float) (qv : value) (agg : list document) :
  get_embedding query default_model default_dimensions s = Run (Ok (Some emb)) s1 t1 ->
  index_exists database_name collection_name index_name s1 = Run (Ok true) s2 t2 ->
  embedder_get_embedding query s2 = (Ok qv, s3) ->
  collection_aggregate (search_pipeline index_name qv) s3 = (Ok agg, s4) ->
  Forall (fun raw => doc_get "_id" raw <> None /\ doc_get "content" raw <> None) agg ->
  (exists docs,
      result (search query limit database_name collection_name index_name filters s)
      = Ok docs
      /\ List.length docs = List.length agg)
  /\ search query limit database_name collection_name index_name filters s =
     search query limit' database_name collection_name index_name filters s.
Proof.
  intros Hemb Hidx Hqv Hagg Hrecords. split; [|rewrite !search_run; reflexivity].
  destruct (map_records_built agg Hrecords []) as (docs & Hmap & Hbuilt).
  cbn in Hmap. exists docs.
  rewrite search_run, Hemb, Hidx, search_try_run, Hqv. cbv zeta.
  rewrite Hagg, Hmap. split; [reflexivity|].
  symmetry. eapply Forall2_length. exact Hbuilt.
Qed.

(** X18: the mapping is all or nothing: if one of the records the
    aggregation returned lacks ["_id"] or ["content"], [search] returns the
    empty list, the other records included, and logs the [KeyError]. *)
Theorem search_bad_record
        (limit : Z) (filters : option document) (s s1 s2 s3 s4 : Env)
        (t1 t2 : list event) (emb : list spec_float) (qv : value)
        (agg : list document) (raw : document) :
  get_embedding query default_model default_dimensions s = Run (Ok (Some emb)) s1 t1 ->
  index_exists database_name collection_name index_name s1 = Run (Ok true) s2 t2 ->
  embedder_get_embedding query s2 = (Ok qv, s3) ->
  collection_aggregate (search_pipeline index_name qv) s3 = (Ok agg, s4) ->
  In raw agg ->
  doc_get "_id" raw = None \/ doc_get "content" raw = None ->
  exists key,
    (key = "_id" \/ key = "content")
    /\ search query limit database_name collection_name index_name filters s =
       Run (Ok []) s4
           (t1 ++ t2
               ++ [EvEmbedderGetEmbedding query;
                   EvAggregate (search_pipeline index_name qv)]
               ++ [EvLog ERROR ("Error during search: '" ++ key ++ "'")])%list.
Proof.
  intros Hemb Hidx Hqv Hagg Hin Hbad.
  destruct (map_records_bad_record agg raw Hin Hbad []) as (key & Hkey & Hmap).
  exists key. split; [exact Hkey|].
  rewrite search_run, Hemb, Hidx, search_try_run, Hqv. cbv zeta.
  rewrite Hagg, Hmap. reflexivity.
Qed.
End SearchMore.

(** X15 on services whose provider answers [None]. *)
Lemma search_none_embedding_witness :
  result (search (Sv := Flaky.services) "hello" 5 "kb" "docs" "vec_idx" None
                 (Flaky.with_faults (Mem.kb 0 []) Flaky.answering_none)) = Ok [].
Proof.
  rewrite (search_none_embedding (Sv := Flaky.services) "hello" "kb" "docs" "vec_idx"
             5 None (Flaky.with_faults (Mem.kb 0 []) Flaky.answering_none)
             _ _ _ eq_refl eq_refl).
  reflexivity.
Defined.

(** X17 with [limit = 1] and two stored records: two results. *)
Lemma search_ignores_limit_witness :
  exists docs,
    result (search "hello" 1 "kb" "docs" "vec_idx" None
                   (Mem.kb 0 [Mem.record 1 "a" Mem.f075; Mem.record 2 "b" Mem.f025]))
    = Ok docs
    /\ List.length docs = 2%nat.
Proof.
  destruct (search_ignores_limit (Sv := Mem.services)
              "hello" "kb" "docs" "vec_idx" 1 5 None
              (Mem.kb 0 [Mem.record 1 "a" Mem.f075; Mem.record 2 "b" Mem.f025])
              _ _ _ _ _ _ _ _ _ eq_refl eq_refl eq_refl eq_refl) as [H _].
  - repeat constructor; discriminate.
  - exact H.
Defined.

(** X18 with a good record followed by one without ["content"]. *)
Lemma search_bad_record_witness :
  result (search "hello" 5 "kb" "docs" "vec_idx" None
                 (Mem.kb 0 [Mem.record 1 "a" Mem.f075; [("_id", VInt 2)]])) = Ok [].
Proof.
  destruct (search_bad_record (Sv := Mem.services)
              "hello" "kb" "docs" "vec_idx" 5 None
              (Mem.kb 0 [Mem.record 1 "a" Mem.f075; [("_id", VInt 2)]])
              _ _ _ _ _ _ _ _ _ [("_id", VInt 2)]
              eq_refl eq_refl eq_refl eq_refl
              (or_intror (or_introl eq_refl)) (or_intror eq_refl))
    as (key & _ & ->).
  reflexivity.
Defined.

(** ** [get_embedding]: normalising is idempotent *)

Lemma str_replace_unchanged (old new : ascii) (text : string) :
  ~ In old (list_ascii_of_string text) -> str_replace old new text = text.
Proof.
  induction text as [|c rest IH]; cbn; [reflexivity|].
  intros Hnot. rewrite IH by tauto.
  destruct (Ascii.eqb c old) eqn:E; [|reflexivity].
  apply Ascii.eqb_eq in E. subst. tauto.
Qed.

(** X19: a text without newlines reaches the provider unchanged, and a text
    already normalised is not changed again: [get_embedding] on the
    normalised text runs exactly as on the original. *)
Theorem get_embedding_normalised
        {Sv : Services} (text model : string) (dimensions : Z) (s : Env) :
  (~ In LF (list_ascii_of_string text) ->
   exists rest,
     events (get_embedding text model dimensions s) =
     EvEmbeddingsCreate [text] model dimensions :: rest)
  /\ get_embedding (str_replace LF SP text) model dimensions s =
     get_embedding text model dimensions s.
Proof.
  split.
  - intros Hnot. rewrite get_embedding_run, (str_replace_unchanged LF SP text Hnot).
    cbv zeta.
    destruct (embeddings_create [text] model dimensions s) as [[emb|e] s1]; cbn; eauto.
  - rewrite !get_embedding_run.
    rewrite (str_replace_unchanged LF SP (str_replace LF SP text)); [reflexivity|].
    apply str_replace_no_old. discriminate.
Qed.

(** X19 on a text without newlines. *)
Lemma get_embedding_normalised_witness :
  exists rest,
    events (get_embedding "a b" "m" 4 Mem.empty) = EvEmbeddingsCreate ["a b"] "m" 4 :: rest.
Proof.
  apply (get_embedding_normalised (Sv := Mem.services) "a b" "m" 4 Mem.empty).
  cbn. intros [H|[H|[H|[]]]]; discriminate.
Defined.

(** ** The demo script *)

Lemma filter_schedule (evs : list event) :
  filter is_check (schedule evs) = filter is_check evs
  /\ filter is_sleep (schedule evs) = filter is_sleep evs.
Proof.
  unfold schedule. induction evs as [|ev evs [IHc IHs]]; [auto|].
  destruct ev; cbn; rewrite ?IHc, ?IHs; auto.
Qed.

Lemma checks_with_waits_count (database_name collection_name : string) (k : nat) :
  List.length (filter is_check (checks_with_waits database_name collection_name k)) = k
  /\ List.length (filter is_sleep (checks_with_waits database_name collection_name k))
     = Nat.pred k.
Proof.
  induction k as [|k [IHc IHs]]; [auto|].
  destruct k as [|k]; [auto|].
  change (checks_with_waits database_name collection_name (S (S k)))
    with (EvListSearchIndexes database_name collection_name :: EvSleep 1
            :: checks_with_waits database_name collection_name (S k)).
  cbn [filter is_check is_sleep List.length]. rewrite IHc, IHs. auto.
Qed.

Section DemoFacts.
Context {Sv : Services}.

Abbreviation provision s :=
  (_create_search_index Demo.database_name Demo.collection_name Demo.index_name
                        get_embedding_callable Demo.distance_metric s).
Abbreviation polling fuel s :=
  (wait_for_index fuel max_attempts 0
                  Demo.database_name Demo.collection_name Demo.index_name s).

(** The run of the script, by the runs of its three steps. *)
Lemma main_run (fuel : nat) (s : Env) :
  Demo.main fuel s =
  let waiting := EvLog INFO "Waiting for the search index to be available..." in
  match provision s with
  | Run (Raise e) s1 t1 => Run (Raise e) s1 t1
  | Run (Ok _) s1 t1 =>
      match polling fuel s1 with
      | Run (Raise e) s2 t2 => Run (Raise e) s2 (t1 ++ waiting :: t2)
      | Run (Ok None) s2 t2 => Run (Ok None) s2 (t1 ++ waiting :: t2 ++ [])
      | Run (Ok (Some _)) s2 t2 =>
          match index_exists Demo.database_name Demo.collection_name
                             Demo.index_name s2 with
          | Run (Raise e) s3 t3 => Run (Raise e) s3 (t1 ++ waiting :: t2 ++ t3)
          | Run (Ok true) s3 t3 =>
              Run (Ok (Some Demo.ready_line)) s3
                  (t1 ++ waiting :: t2 ++ t3
                      ++ [EvLog INFO ("Search index '" ++ Demo.index_name
                                      ++ "' is now available!")])
          | Run (Ok false) s3 t3 =>
              Run (Ok (Some Demo.exceeded_line)) s3 (t1 ++ waiting :: t2 ++ t3 ++ [])
          end
      end
  end%list.
Proof.
  unfold Demo.main. unfold bind at 1.
  destruct (provision s) as [[[]|e] s1 t1]; [|reflexivity].
  unfold bind at 1, log at 1. unfold bind at 1.
  destruct (polling fuel s1) as [[[st|]|e] s2 t2]; try reflexivity.
  unfold bind at 1.
  destruct (index_exists Demo.database_name Demo.collection_name Demo.index_name s2)
    as [[[|]|e] s3 t3]; reflexivity.
Qed.

(** X20: the demo script, its loop given fuel for eleven checks.  If
    provisioning raises, the script stops there: it raises the same
    exception and polls nothing.  Otherwise it prints one of its two lines,
    "Index is ready!" exactly when a last check after the loop reports the
    index, having requested at most one index creation, listed the search
    indexes at most 13 times and slept at most 10 seconds. *)
Theorem main_outcomes (fuel : nat) (s : Env) :
  (11 <= fuel)%nat ->
  (forall e,
      result (provision s) = Raise e ->
      result (Demo.main fuel s) = Raise e
      /\ events (Demo.main fuel s) = events (provision s)
      /\ env_after (Demo.main fuel s) = env_after (provision s))
  /\ (result (provision s) = Ok tt ->
      (result (Demo.main fuel s) = Ok (Some Demo.ready_line)
       \/ result (Demo.main fuel s) = Ok (Some Demo.exceeded_line))
      /\ (result (Demo.main fuel s) = Ok (Some Demo.ready_line)
          <-> check Demo.database_name Demo.collection_name Demo.index_name
                    (env_after (polling fuel (env_after (provision s)))) = true)
      /\ (List.length (creations (events (Demo.main fuel s))) <= 1)%nat
      /\ (List.length (filter is_check (events (Demo.main fuel s))) <= 13)%nat
      /\ (List.length (filter is_sleep (events (Demo.main fuel s))) <= 10)%nat).
Proof.
  intros Hfuel.
  destruct (create_search_index_at_most_once
              Demo.database_name Demo.collection_name Demo.index_name
              get_embedding_callable Demo.distance_metric s)
    as (Hk1 & Hp1 & Hc1 & Hs1).
  rewrite main_run. cbv zeta.
  destruct (provision s) as [[[]|e] s1 t1]; cbn [result events env_after] in *.
  2: { split; [|discriminate]. intros e' H. injection H as ->. auto. }
  split; [discriminate|]. intros _.
  assert (Hfuel' : (Z.to_nat max_attempts < fuel)%nat) by (cbn; lia).
  destruct (wait_for_index_bounded Demo.database_name Demo.collection_name
              Demo.index_name max_attempts fuel s1 Hfuel')
    as (k & Hk & Hsched & _ & Hc2).
  destruct (wait_for_index_ready_iff Demo.database_name Demo.collection_name
              Demo.index_name max_attempts fuel s1 ltac:(discriminate) Hfuel')
    as [_ Hended].
  destruct (filter_schedule (events (polling fuel s1))) as [Hfc Hfs].
  destruct (checks_with_waits_count Demo.database_name Demo.collection_name k)
    as [Hcount Hsleeps].
  rewrite Hsched in Hfc, Hfs. rewrite Hfc in Hcount. rewrite Hfs in Hsleeps.
  change (Z.to_nat max_attempts) with 10%nat in Hk.
  destruct (polling fuel s1) as [ended s2 t2]; cbn [result events env_after] in *.
  assert (Hsome : exists st, ended = Ok (Some st))
    by (destruct Hended as [->| ->]; eauto).
  destruct Hsome as (st & ->).
  unfold check.
  destruct (index_exists_shape Demo.database_name Demo.collection_name
              Demo.index_name s2) as (b & lines & ->).
  unfold creations in *.
  assert (Hp0 : (List.length (filter is_creation t1) <= 1)%nat) by lia.
  destruct b; cbn [result events];
    rewrite ?filter_app; cbn; rewrite ?filter_app, ?filter_log_lines by reflexivity;
    cbn; rewrite ?length_app; cbn; rewrite ?Hc2; cbn;
    repeat (progress (rewrite ?filter_app, ?filter_log_lines by reflexivity; cbn));
    rewrite ?Hs1, ?Hcount, ?Hsleeps; cbn.
  - split; [auto|]. split; [tauto|]. lia.
  - split; [auto|]. split; [split; discriminate|]. lia.
Qed.
End DemoFacts.

(** X20 on an empty in-memory database: the index is created, seen by the
    first check of the loop, and the script prints that it is ready. *)
Lemma main_outcomes_witness :
  result (Demo.main 11 Mem.empty) = Ok (Some Demo.ready_line)
  /\ (List.length (filter is_check (events (Demo.main 11 Mem.empty))) <= 13)%nat.
Proof.
  destruct (main_outcomes (Sv := Mem.services) 11 Mem.empty ltac:(lia)) as [_ H].
  destruct (H eq_refl) as (_ & [_ Hready] & _ & Hchecks & _).
  split; [exact (Hready eq_refl)|exact Hchecks].
Defined.
